(** * raspberry_camera.py: the streaming client loop

    A shallow embedding of [main] of [src/raspberry_camera.py] and the
    properties of its control loop.

    The program is a single sequential loop around external calls
    ([time.time], [time.sleep], [requests.get], [requests.post], the camera
    and the encoder).  The embedding threads the function's local variables
    through a small state-and-exception monad, records every external call
    as an event, and takes the answers of the outside world from a [world]
    record per loop iteration.

    Conventions of the model:
    - A Python float is the rational it denotes ([Q]).  The division
      [1.0 / args.fps] is rounded to binary64 as Python rounds it, and the
      conversion of [args.fps] overflows as Python's does.  Clock readings
      are whatever rationals the world answers, and the difference of two
      readings is taken exact: binary64 subtracts two readings exactly
      whenever each is at most twice the other (Sterbenz), as the readings
      of [time.time()] within a run are.
    - [logger.*] calls and [picam.stop()] are events that return normally.
    - An exception (also [KeyboardInterrupt]) is delivered at an external
      call, as that call's answer. *)

From Stdlib Require Import List String Ascii Bool ZArith QArith Qabs Lia Lqa.
Import ListNotations.
Local Open Scope Z_scope.
Local Open Scope Q_scope.
Local Open Scope string_scope.
Local Open Scope list_scope.

Set Implicit Arguments.

(** ** Exceptions *)

(** The exception classes the handlers of [main] tell apart. *)
Inductive exn : Type :=
| KeyboardInterrupt            (* BaseException, not an Exception *)
| SystemExit                   (* BaseException, not an Exception *)
| Timeout                      (* requests.exceptions.RequestException *)
| ConnectionError              (* requests.exceptions.RequestException *)
| RequestsJSONDecodeError      (* requests.exceptions.RequestException *)
| ValueError
| TypeError
| ZeroDivisionError
| OverflowError
| RuntimeError.

(** [isinstance(e, Exception)] *)
Definition is_Exception (e : exn) : bool :=
  match e with
  | KeyboardInterrupt | SystemExit => false
  | _ => true
  end.

(** [isinstance(e, requests.exceptions.RequestException)] *)
Definition is_RequestException (e : exn) : bool :=
  match e with
  | Timeout | ConnectionError | RequestsJSONDecodeError => true
  | _ => false
  end.

(** The answer of an external call: a value or a raised exception. *)
Inductive res (A : Type) : Type :=
| Ok (a : A)
| Raise (e : exn).
Arguments Ok {A} a.
Arguments Raise {A} e.

(** ** Python values, as [response.json()] returns them *)

Local Set Warnings "-register-all".

Inductive pyval : Type :=
| PyNone
| PyBool (b : bool)
| PyInt (z : Z)
| PyFloat (q : Q)
| PyStr (s : string)
| PyList (l : list pyval)
| PyDict (items : list (string * pyval)).

(** [dict.get]-style lookup in the items of a dict (keys are unique). *)
Fixpoint lookup (k : string) (items : list (string * pyval)) : option pyval :=
  match items with
  | [] => None
  | (k', v) :: rest => if String.eqb k k' then Some v else lookup k rest
  end.

(** [v == s] for a [str] [s]. *)
Definition py_eq_str (v : pyval) (s : string) : bool :=
  match v with
  | PyStr t => String.eqb t s
  | _ => false
  end.

(** [sub in s] on two strings. *)
Fixpoint is_substring (sub s : string) : bool :=
  if String.prefix sub s then true
  else match s with
       | EmptyString => false
       | String _ rest => is_substring sub rest
       end.

(** [k in v]: key membership on a dict, element membership on a list,
    substring on a str, [TypeError] on anything else. *)
Definition py_in (k : string) (v : pyval) : res bool :=
  match v with
  | PyDict items => Ok (match lookup k items with Some _ => true | None => false end)
  | PyList l => Ok (existsb (fun x => py_eq_str x k) l)
  | PyStr s => Ok (is_substring k s)
  | _ => Raise TypeError
  end.

(** [v[k]] for a [str] key: only a dict can be indexed by a string. *)
Definition py_getitem (v : pyval) (k : string) : res pyval :=
  match v with
  | PyDict items =>
      match lookup k items with
      | Some x => Ok x
      | None => Raise RuntimeError     (* KeyError *)
      end
  | _ => Raise TypeError
  end.

(** Truth value of a Python object, as [not v] tests it. *)
Definition truthy (v : pyval) : bool :=
  match v with
  | PyNone => false
  | PyBool b => b
  | PyInt z => negb (Z.eqb z 0)
  | PyFloat q => negb (Qeq_bool q 0)
  | PyStr s => negb (String.eqb s "")
  | PyList l => match l with [] => false | _ => true end
  | PyDict items => match items with [] => false | _ => true end
  end.

(** ** Configuration, events, the outside world *)

(** [args] after [parser.parse_args()]. *)
Record config : Type := {
  server : string;
  width : Z;
  height : Z;
  fps : Z;
  quality : Z;
  camera_id : string
}.

(** [s.rstrip('/')] *)
Fixpoint rstrip_slash (s : string) : string :=
  match s with
  | EmptyString => EmptyString
  | String c rest =>
      match rstrip_slash rest with
      | EmptyString => if Ascii.eqb c "/"%char then EmptyString else String c EmptyString
      | r => String c r
      end
  end.

Definition server_url (cfg : config) : string := rstrip_slash (server cfg).
Definition stream_url (cfg : config) : string := server_url cfg ++ "/receive_camera_frame".
Definition status_url (cfg : config) : string := server_url cfg ++ "/api/status".

Inductive level : Type := INFO | WARNING | ERROR.

(** The log lines of the program, by what they report. *)
Inductive message : Type :=
| MsgServerUrl (url : string)
| MsgSettings (w h f q : Z)
| MsgCameraId (id : string)
| MsgCameraReady
| MsgStreamingStart
| MsgActivated
| MsgDeactivated
| MsgStatusError (e : exn)
| MsgServerRevoked
| MsgSendOk (count : Z) (fps_estimate : Q)
| MsgSendFailed (code : Z)
| MsgConnectionError (e : exn)
| MsgInterrupted
| MsgFatal (e : exn)
| MsgShutdown.

(** What the process does to the outside world, in order.  [ECapture]
    carries the iteration's [current_time], the timestamp the loop uses
    for that capture. *)
Inductive event : Type :=
| ELog (lv : level) (m : message)
| ESleep (seconds : Q)
| EGet (url : string) (timeout : Q)
| EPost (url : string) (cam : string) (frame : string) (timeout : Q)
| ECameraInit
| ECameraConfigure (w h : Z)
| ECameraControls
| ECameraStart
| ECapture (current_time : Q)
| EEncode (q : Z)
| ECameraStop.

(** An HTTP response: its status code and what [response.json()] gives. *)
Record response : Type := {
  status_code : Z;
  json : res pyval
}.

(** The answers of the outside world during one loop iteration. *)
Record world : Type := {
  w_time : res Q;            (* time.time(), line 72 *)
  w_get : res response;      (* requests.get, line 77 *)
  w_sleep : res unit;        (* the one time.sleep the iteration reaches *)
  w_capture : res unit;      (* picam.capture_array and cvtColor, 114-117 *)
  w_encode : res string;     (* cv2.imencode and b64encode, 120-124 *)
  w_post : res response      (* requests.post, line 128 *)
}.

(** The answers of the outside world during start-up (lines 52-66). *)
Record startup : Type := {
  s_camera : res unit;       (* Picamera2() *)
  s_configure : res unit;    (* picam.configure(...) *)
  s_controls : res unit;     (* picam.set_controls(...) *)
  s_start : res unit;        (* picam.start() *)
  s_sleep : res unit;        (* time.sleep(2) *)
  s_time1 : res Q;           (* time.time(), line 65 *)
  s_time2 : res Q            (* time.time(), line 66 *)
}.

(** ** Local variables of [main] *)

(** The locals the [try] block assigns.  [picam] is ['picam' in locals()];
    the other fields hold a default until their assignment is reached and
    are not read before. *)
Record locals : Type := {
  picam : bool;
  frame_interval : Q;
  last_frame_time : Q;
  last_status_check : Q;
  frame_count : Z;
  is_active : bool;
  status_check_interval : Q
}.

Definition unbound : locals :=
  {| picam := false; frame_interval := 0; last_frame_time := 0;
     last_status_check := 0; frame_count := 0%Z; is_active := false;
     status_check_interval := 0 |}.

Definition set_picam (b : bool) (l : locals) : locals :=
  {| picam := b; frame_interval := frame_interval l;
     last_frame_time := last_frame_time l;
     last_status_check := last_status_check l;
     frame_count := frame_count l; is_active := is_active l;
     status_check_interval := status_check_interval l |}.

Definition set_frame_interval (q : Q) (l : locals) : locals :=
  {| picam := picam l; frame_interval := q;
     last_frame_time := last_frame_time l;
     last_status_check := last_status_check l;
     frame_count := frame_count l; is_active := is_active l;
     status_check_interval := status_check_interval l |}.

Definition set_last_frame_time (q : Q) (l : locals) : locals :=
  {| picam := picam l; frame_interval := frame_interval l;
     last_frame_time := q;
     last_status_check := last_status_check l;
     frame_count := frame_count l; is_active := is_active l;
     status_check_interval := status_check_interval l |}.

Definition set_last_status_check (q : Q) (l : locals) : locals :=
  {| picam := picam l; frame_interval := frame_interval l;
     last_frame_time := last_frame_time l;
     last_status_check := q;
     frame_count := frame_count l; is_active := is_active l;
     status_check_interval := status_check_interval l |}.

Definition set_frame_count (z : Z) (l : locals) : locals :=
  {| picam := picam l; frame_interval := frame_interval l;
     last_frame_time := last_frame_time l;
     last_status_check := last_status_check l;
     frame_count := z; is_active := is_active l;
     status_check_interval := status_check_interval l |}.

Definition set_is_active (b : bool) (l : locals) : locals :=
  {| picam := picam l; frame_interval := frame_interval l;
     last_frame_time := last_frame_time l;
     last_status_check := last_status_check l;
     frame_count := frame_count l; is_active := b;
     status_check_interval := status_check_interval l |}.

Definition set_status_check_interval (q : Q) (l : locals) : locals :=
  {| picam := picam l; frame_interval := frame_interval l;
     last_frame_time := last_frame_time l;
     last_status_check := last_status_check l;
     frame_count := frame_count l; is_active := is_active l;
     status_check_interval := q |}.

(** ** The monad: locals, a trace of events, and exceptions

    A computation starts from the locals and ends with the events it
    produced, the locals as it left them and either a value or the exception
    that is propagating.  The locals survive an exception, as Python's
    do. *)

Record outcome (A : Type) : Type := {
  trace : list event;
  final : locals;
  value : res A
}.

Definition M (A : Type) : Type := locals -> outcome A.

Definition ret {A} (a : A) : M A :=
  fun l => {| trace := []; final := l; value := Ok a |}.

Definition raise {A} (e : exn) : M A :=
  fun l => {| trace := []; final := l; value := Raise e |}.

Definition bind {A B} (m : M A) (k : A -> M B) : M B :=
  fun l =>
    match m l with
    | {| trace := t; final := l1; value := Ok a |} =>
        match k a l1 with
        | {| trace := t'; final := l2; value := v |} =>
            {| trace := t ++ t'; final := l2; value := v |}
        end
    | {| trace := t; final := l1; value := Raise e |} =>
        {| trace := t; final := l1; value := Raise e |}
    end.

(** [try: m except <class>: h], where [catches] is the class test. *)
Definition try_except {A} (m : M A) (catches : exn -> bool) (h : exn -> M A) : M A :=
  fun l =>
    match m l with
    | {| trace := t; final := l1; value := Ok a |} =>
        {| trace := t; final := l1; value := Ok a |}
    | {| trace := t; final := l1; value := Raise e |} =>
        if catches e then
          match h e l1 with
          | {| trace := t'; final := l2; value := v |} =>
              {| trace := t ++ t'; final := l2; value := v |}
          end
        else {| trace := t; final := l1; value := Raise e |}
    end.

Definition emit (e : event) : M unit :=
  fun l => {| trace := [e]; final := l; value := Ok tt |}.

Definition read {A} (f : locals -> A) : M A :=
  fun l => {| trace := []; final := l; value := Ok (f l) |}.

Definition assign (f : locals -> locals) : M unit :=
  fun l => {| trace := []; final := f l; value := Ok tt |}.

(** An external call: the event, then the world's answer. *)
Definition call {A} (e : event) (answer : res A) : M A :=
  fun l => {| trace := [e]; final := l; value := answer |}.

(** The world's answer to something that is not an event of its own. *)
Definition answer_of {A} (r : res A) : M A :=
  fun l => {| trace := []; final := l; value := r |}.

Declare Scope py_scope.
Delimit Scope py_scope with py.
Notation "x <- m ;; k" := (bind m (fun x => k))
  (at level 61, m at next level, right associativity) : py_scope.
Notation "m ;; k" := (bind m (fun _ => k))
  (at level 61, right associativity) : py_scope.
Local Open Scope py_scope.

Definition log (lv : level) (m : message) : M unit := emit (ELog lv m).

Definition when (b : bool) (m : M unit) : M unit := if b then m else ret tt.

(** ** Comparisons on times *)

(** [a >= b] *)
Definition Qgeb (a b : Q) : bool := Qle_bool b a.
(** [a < b] *)
Definition Qltb (a b : Q) : bool := negb (Qle_bool b a).

(** ** Binary64 arithmetic of the start-up *)

(** [2 ** e] as a rational. *)
Definition pow2 (e : Z) : Q :=
  if (0 <=? e)%Z then inject_Z (2 ^ e) else 1 # Z.to_pos (2 ^ (- e)).

(** [num / den] rounded to the nearest integer, ties to even. *)
Definition round_half_even (num den : Z) : Z :=
  let f := (num / den)%Z in
  match (2 * (num mod den) ?= den)%Z with
  | Lt => f
  | Gt => (f + 1)%Z
  | Eq => if Z.even f then f else (f + 1)%Z
  end.

(** The binary64 value nearest to [p / q] (ties to even) for positive [p]
    and [q]: 53 significant bits, and no unit in the last place below
    [2 ** -1074], that of the subnormals.  The result may reach
    [2 ** 1024]; the callers test for that. *)
Definition double_of_pos (p q : positive) : Q :=
  let e0 := (Z.log2 (Zpos p) - Z.log2 (Zpos q))%Z in
  let e := if (if (0 <=? e0)%Z then (Zpos p <? Zpos q * 2 ^ e0)%Z
               else (Zpos p * 2 ^ (- e0) <? Zpos q)%Z)
           then (e0 - 1)%Z else e0 in
  let u := Z.max (e - 52) (-1074) in
  let m := if (0 <=? u)%Z then round_half_even (Zpos p) (Zpos q * 2 ^ u)
           else round_half_even (Zpos p * 2 ^ (- u)) (Zpos q) in
  inject_Z m * pow2 u.

(** The binary64 value nearest to a rational. *)
Definition to_double (x : Q) : Q :=
  match Qnum x with
  | Z0 => 0
  | Zpos p => double_of_pos p (Qden x)
  | Zneg p => - double_of_pos p (Qden x)
  end.

(** [float(n)] for an [int]: the nearest double, [OverflowError] when
    that is out of range. *)
Definition float_of_int (n : Z) : res Q :=
  let x := to_double (inject_Z n) in
  if Qle_bool (pow2 1024) (Qabs x) then Raise OverflowError else Ok x.

(** [1.0 / n] for an [int] [n] (line 61): [n] is converted to a double,
    division by zero raises, and the quotient is rounded. *)
Definition one_over (n : Z) : res Q :=
  match float_of_int n with
  | Raise e => Raise e
  | Ok x => if Qeq_bool x 0 then Raise ZeroDivisionError
            else Ok (Qred (to_double (1 / x)))
  end.

(** ** The program *)

(** Lines 75-99: the periodic status poll, run when it is due. *)
Definition status_poll (cfg : config) (w : world) (current_time : Q) : M unit :=
  lsc <- read last_status_check ;;
  sci <- read status_check_interval ;;
  when (Qgeb (current_time - lsc) sci)
    (try_except
       (response <- call (EGet (status_url cfg) 1) (w_get w) ;;
        when (Z.eqb (status_code response) 200)
          (status_data <- answer_of (json response) ;;
           has <- answer_of (py_in "current_source" status_data) ;;
           when has
             (was_active <- read is_active ;;
              source <- answer_of (py_getitem status_data "current_source") ;;
              assign (set_is_active (py_eq_str source (camera_id cfg))) ;;
              now_active <- read is_active ;;
              when (negb (Bool.eqb now_active was_active))
                (if now_active then log INFO MsgActivated
                 else log INFO MsgDeactivated))) ;;
        assign (set_last_status_check current_time) ;;
        now_active <- read is_active ;;
        assign (set_status_check_interval (if negb now_active then 1#2 else 3)))
       is_Exception
       (fun e =>
          log ERROR (MsgStatusError e) ;;
          assign (set_last_status_check current_time))).

(** Lines 126-153: the upload of one encoded frame. *)
Definition upload (cfg : config) (w : world) (elapsed : Q) (frame_base64 : string)
  : M unit :=
  try_except
    (response <- call (EPost (stream_url cfg) (camera_id cfg) frame_base64 1) (w_post w) ;;
     if Z.eqb (status_code response) 200 then
       resp_data <- answer_of (json response) ;;
       count <- read frame_count ;;
       assign (set_frame_count (count + 1)%Z) ;;
       has <- answer_of (py_in "is_active" resp_data) ;;
       revoked <- (if has
                   then flag <- answer_of (py_getitem resp_data "is_active") ;;
                        ret (negb (truthy flag))
                   else ret false) ;;
       when revoked
         (assign (set_is_active false) ;;
          log INFO MsgServerRevoked) ;;
       count' <- read frame_count ;;
       when (Z.eqb (count' mod 30) 0)
         (if Qeq_bool elapsed 0 then raise ZeroDivisionError
          else log INFO (MsgSendOk count' (1 / elapsed)))
     else
       log WARNING (MsgSendFailed (status_code response)))
    is_RequestException
    (fun e =>
       log ERROR (MsgConnectionError e) ;;
       call (ESleep 1) (w_sleep w)).

(** Lines 101-156: the activation gate, the pacing gate, then capture,
    encoding and upload of one frame. *)
Definition frame_step (cfg : config) (w : world) (current_time : Q) : M unit :=
  active <- read is_active ;;
  if negb active then
    call (ESleep (1#10)) (w_sleep w)                  (* continue *)
  else
    last <- read last_frame_time ;;
    interval <- read frame_interval ;;
    let elapsed := current_time - last in
    if Qltb elapsed interval then
      call (ESleep (1#1000)) (w_sleep w)              (* continue *)
    else
      call (ECapture current_time) (w_capture w) ;;
      frame_base64 <- call (EEncode (quality cfg)) (w_encode w) ;;
      upload cfg w elapsed frame_base64 ;;
      assign (set_last_frame_time current_time).

(** Lines 72-156: one iteration of [while True]. *)
Definition loop_body (cfg : config) (w : world) : M unit :=
  current_time <- answer_of (w_time w) ;;
  status_poll cfg w current_time ;;
  frame_step cfg w current_time.

(** [while True], over the iterations the given worlds answer.  The loop
    has no exit of its own: it ends by an exception, or the list of worlds
    runs out with the loop still going. *)
Fixpoint streaming_loop (cfg : config) (ws : list world) : M unit :=
  match ws with
  | [] => ret tt
  | w :: rest => loop_body cfg w ;; streaming_loop cfg rest
  end.

(** Lines 61-69: the loop's variables before the first iteration. *)
Definition init_loop (cfg : config) (sw : startup) : M unit :=
  interval <- answer_of (one_over (fps cfg)) ;;
  assign (set_frame_interval interval) ;;
  log INFO MsgStreamingStart ;;
  t1 <- answer_of (s_time1 sw) ;;
  assign (set_last_frame_time t1) ;;
  t2 <- answer_of (s_time2 sw) ;;
  assign (set_last_status_check t2) ;;
  assign (set_frame_count 0%Z) ;;
  assign (set_is_active false) ;;
  assign (set_status_check_interval 1).

(** Lines 51-156: the body of the outer [try]. *)
Definition try_block (cfg : config) (sw : startup) (ws : list world) : M unit :=
  call ECameraInit (s_camera sw) ;;
  assign (set_picam true) ;;
  call (ECameraConfigure (width cfg) (height cfg)) (s_configure sw) ;;
  call ECameraControls (s_controls sw) ;;
  call ECameraStart (s_start sw) ;;
  log INFO MsgCameraReady ;;
  call (ESleep 2) (s_sleep sw) ;;
  init_loop cfg sw ;;
  streaming_loop cfg ws.

(** Lines 158-161: the two [except] clauses of the outer [try]; an
    exception neither catches keeps propagating. *)
Definition handlers (e : exn) : M unit :=
  match e with
  | KeyboardInterrupt => log INFO MsgInterrupted
  | _ => if is_Exception e then log ERROR (MsgFatal e) else raise e
  end.

(** Lines 162-165: the [finally] clause. *)
Definition finally_block : M unit :=
  bound <- read picam ;;
  when bound (emit ECameraStop) ;;
  log INFO MsgShutdown.

(** How a run of [main] over finitely many iterations stands at its end. *)
Inductive status : Type :=
| Running                              (* the loop is still going *)
| Exited (propagating : option exn).   (* main is left, with or without an exception *)

Record run : Type := {
  events : list event;
  vars : locals;
  state : status
}.

(** Lines 38-165: [main] after argument parsing. *)
Definition main (cfg : config) (sw : startup) (ws : list world) : run :=
  let prelude :=
    [ELog INFO (MsgServerUrl (stream_url cfg));
     ELog INFO (MsgSettings (width cfg) (height cfg) (fps cfg) (quality cfg));
     ELog INFO (MsgCameraId (camera_id cfg))] in
  let o := try_block cfg sw ws unbound in
  match value o with
  | Ok _ => {| events := prelude ++ trace o; vars := final o; state := Running |}
  | Raise e =>
      let h := handlers e (final o) in
      let f := finally_block (final h) in
      {| events := prelude ++ trace o ++ trace h ++ trace f;
         vars := final f;
         state := Exited (match value h with Ok _ => None | Raise e' => Some e' end) |}
  end.

(** ** Reading the trace *)

(** The events of capturing, encoding and uploading a frame. *)
Definition is_frame_event (e : event) : bool :=
  match e with
  | ECapture _ | EEncode _ | EPost _ _ _ _ => true
  | _ => false
  end.

Definition is_post (e : event) : bool :=
  match e with
  | EPost _ _ _ _ => true
  | _ => false
  end.

Definition is_get (e : event) : bool :=
  match e with
  | EGet _ _ => true
  | _ => false
  end.

Definition is_camera_stop (e : event) : bool :=
  match e with
  | ECameraStop => true
  | _ => false
  end.

(** The poll logged an error: its [except] clause ran. *)
Definition is_status_error (e : event) : bool :=
  match e with
  | ELog ERROR (MsgStatusError _) => true
  | _ => false
  end.


(** Every timestamp is at least [d] after the one before it, the first
    one at least [d] after [t0]. *)
Fixpoint spaced_from (d t0 : Q) (ts : list Q) : Prop :=
  match ts with
  | [] => True
  | t :: rest => t0 + d <= t /\ spaced_from d t rest
  end.

(** Consecutive timestamps are at least [d] apart. *)
Definition spaced (d : Q) (ts : list Q) : Prop :=
  match ts with
  | [] => True
  | t :: rest => spaced_from d t rest
  end.

(** The poll is due at [current_time] (line 75). *)
Definition poll_due (current_time : Q) (l : locals) : bool :=
  Qgeb (current_time - last_status_check l) (status_check_interval l).


(** ** Sample runs

    A configuration, a start-up and a few iterations, for running the
    model on concrete inputs. *)

Definition sample_cfg : config :=
  {| server := "http://192.168.219.100:5000/"; width := 640; height := 480;
     fps := 12; quality := 70; camera_id := "camera_0" |}.

(** The camera comes up and the clock reads 0 at loop entry. *)
Definition sample_startup : startup :=
  {| s_camera := Ok tt; s_configure := Ok tt; s_controls := Ok tt;
     s_start := Ok tt; s_sleep := Ok tt; s_time1 := Ok 0; s_time2 := Ok 0 |}.

Definition ok_json (v : pyval) : response := {| status_code := 200; json := Ok v |}.

(** An iteration at time [t]: the status endpoint names [source], the
    upload endpoint answers 200 with [reply], nothing raises. *)
Definition quiet_world (t : Q) (source : string) (reply : pyval) : world :=
  {| w_time := Ok t;
     w_get := Ok (ok_json (PyDict [("current_source", PyStr source)]));
     w_sleep := Ok tt; w_capture := Ok tt; w_encode := Ok "/9j/4AAQ";
     w_post := Ok (ok_json reply) |}.

(** At time 1 the server names this camera and accepts the frame. *)
Definition w_activate : world := quiet_world 1 "camera_0" (PyDict [("status", PyStr "ok")]).

(** At time 2 the upload answer revokes the activation. *)
Definition w_revoke : world :=
  quiet_world 2 "camera_0" (PyDict [("is_active", PyBool false)]).

(** At time 2 the upload answer confirms the activation. *)
Definition w_confirm : world :=
  quiet_world 2 "camera_0" (PyDict [("is_active", PyBool true)]).

(** At time 1 the server names another camera. *)
Definition w_other : world := quiet_world 1 "camera_1" (PyDict []).

(** At time [t] the status poll times out. *)
Definition w_poll_timeout (t : Q) : world :=
  {| w_time := Ok t; w_get := Raise Timeout; w_sleep := Ok tt;
     w_capture := Ok tt; w_encode := Ok "/9j/4AAQ";
     w_post := Ok (ok_json (PyDict [])) |}.

(** At time [t] the status endpoint answers 503. *)
Definition w_poll_503 (t : Q) : world :=
  {| w_time := Ok t; w_get := Ok {| status_code := 503; json := Raise ValueError |};
     w_sleep := Ok tt; w_capture := Ok tt; w_encode := Ok "/9j/4AAQ";
     w_post := Ok (ok_json (PyDict [])) |}.

(** At time [t] the status endpoint answers 200 with a body that has no
    [current_source]. *)
Definition w_poll_no_source (t : Q) : world :=
  {| w_time := Ok t; w_get := Ok (ok_json (PyDict [("uptime", PyInt 42)]));
     w_sleep := Ok tt; w_capture := Ok tt; w_encode := Ok "/9j/4AAQ";
     w_post := Ok (ok_json (PyDict [])) |}.

(** At time 2 the upload is refused. *)
Definition w_post_refused : world :=
  {| w_time := Ok 2;
     w_get := Ok (ok_json (PyDict [("current_source", PyStr "camera_0")]));
     w_sleep := Ok tt; w_capture := Ok tt; w_encode := Ok "/9j/4AAQ";
     w_post := Raise ConnectionError |}.

(** At time 2 the user presses Ctrl-C during the idle sleep. *)
Definition w_interrupt : world :=
  {| w_time := Ok 2;
     w_get := Ok (ok_json (PyDict [("current_source", PyStr "camera_1")]));
     w_sleep := Raise KeyboardInterrupt; w_capture := Ok tt;
     w_encode := Ok "/9j/4AAQ"; w_post := Ok (ok_json (PyDict [])) |}.

(** The locals after start-up, before the first iteration. *)
Definition at_loop_entry : locals := vars (main sample_cfg sample_startup []).

(** The locals after the server has activated this camera at time 1. *)
Definition once_active : locals := vars (main sample_cfg sample_startup [w_activate]).

(** ** Reading whole runs *)

(** ["/" * n] *)
Fixpoint slashes (n : nat) : string :=
  match n with
  | O => EmptyString
  | S k => String "/"%char (slashes k)
  end.

(** [s.endswith('/')] *)
Fixpoint ends_with_slash (s : string) : bool :=
  match s with
  | EmptyString => false
  | String c EmptyString => Ascii.eqb c "/"%char
  | String _ rest => ends_with_slash rest
  end.

Definition is_sleep (e : event) : bool :=
  match e with
  | ESleep _ => true
  | _ => false
  end.

Definition count_gets (tr : list event) : nat := List.length (filter is_get tr).
Definition count_posts (tr : list event) : nat := List.length (filter is_post tr).

(** What a reader of the log takes the activation state to be after one
    more event: the three transition lines of the program set it. *)
Definition replay_event (active : bool) (e : event) : bool :=
  match e with
  | ELog INFO MsgActivated => true
  | ELog INFO MsgDeactivated => false
  | ELog INFO MsgServerRevoked => false
  | _ => active
  end.

(** The activation state read off a whole trace, starting from [active]. *)
Definition replay (active : bool) (tr : list event) : bool :=
  fold_left replay_event tr active.

(** Every capture, encode and POST of the trace happens while the log
    says active. *)
Fixpoint frames_while_active (active : bool) (tr : list event) : bool :=
  match tr with
  | [] => true
  | e :: rest =>
      (if is_frame_event e then active else true)
      && frames_while_active (replay_event active e) rest
  end.

(** A throughput line reports a positive multiple of 30 frames. *)
Definition throughput_ok (e : event) : Prop :=
  match e with
  | ELog _ (MsgSendOk count _) => (0 < count)%Z /\ (count mod 30 = 0)%Z
  | _ => True
  end.

(** A configuration with another server string. *)
Definition with_server (cfg : config) (s : string) : config :=
  {| server := s; width := width cfg; height := height cfg; fps := fps cfg;
     quality := quality cfg; camera_id := camera_id cfg |}.

(** [--fps 0] and [--fps -5] are accepted by the parser. *)
Definition zero_fps_cfg : config :=
  {| server := "http://192.168.219.100:5000"; width := 640; height := 480;
     fps := 0; quality := 70; camera_id := "camera_0" |}.

(** [--fps] with a value of 310 digits. *)
Definition huge_fps_cfg : config :=
  {| server := "http://192.168.219.100:5000"; width := 640; height := 480;
     fps := 10 ^ 309; quality := 70; camera_id := "camera_0" |}.

(** The camera cannot be opened. *)
Definition no_camera : startup :=
  {| s_camera := Raise RuntimeError; s_configure := Ok tt; s_controls := Ok tt;
     s_start := Ok tt; s_sleep := Ok tt; s_time1 := Ok 0; s_time2 := Ok 0 |}.

(** The process is told to exit during the stabilisation sleep. *)
Definition exit_in_startup : startup :=
  {| s_camera := Ok tt; s_configure := Ok tt; s_controls := Ok tt;
     s_start := Ok tt; s_sleep := Raise SystemExit; s_time1 := Ok 0; s_time2 := Ok 0 |}.

(** At time 2 the upload endpoint answers 500. *)
Definition w_post_500 : world :=
  {| w_time := Ok 2;
     w_get := Ok (ok_json (PyDict [("current_source", PyStr "camera_0")]));
     w_sleep := Ok tt; w_capture := Ok tt; w_encode := Ok "/9j/4AAQ";
     w_post := Ok {| status_code := 500; json := Raise ValueError |} |}.

(** At time 5 Ctrl-C arrives during the status GET. *)
Definition w_interrupt_in_get : world :=
  {| w_time := Ok 5; w_get := Raise KeyboardInterrupt; w_sleep := Ok tt;
     w_capture := Ok tt; w_encode := Ok "/9j/4AAQ";
     w_post := Ok (ok_json (PyDict [])) |}.

(** At time 2 the POST fails with an exception that is no
    [RequestException]. *)
Definition w_post_value_error : world :=
  {| w_time := Ok 2;
     w_get := Ok (ok_json (PyDict [("current_source", PyStr "camera_0")]));
     w_sleep := Ok tt; w_capture := Ok tt; w_encode := Ok "/9j/4AAQ";
     w_post := Raise ValueError |}.

(** Locals of an active loop that was started with [--fps -4], 29 frames
    sent, the last one at time 7. *)
Definition negative_fps_locals : locals :=
  {| picam := true; frame_interval := -(1#4); last_frame_time := 7;
     last_status_check := 7; frame_count := 29; is_active := true;
     status_check_interval := 3 |}.

(** The clock still reads 7 and the upload is accepted. *)
Definition w_same_instant : world :=
  quiet_world 7 "camera_0" (PyDict [("status", PyStr "ok")]).

(** What every iteration keeps: while [is_active] is true the interval is
    3.0, and the interval is one of the three values the program assigns. *)
Definition interval_sound (l : locals) : Prop :=
  (is_active l = true -> status_check_interval l = 3) /\
  (status_check_interval l = 1 \/ status_check_interval l = (1#2) \/
   status_check_interval l = 3).

(** The timestamps of the iterations of the loop that issued a status
    GET, in order. *)
Fixpoint poll_stamps (cfg : config) (ws : list world) (l : locals) : list Q :=
  match ws with
  | [] => []
  | w :: rest =>
      let b := loop_body cfg w l in
      (if existsb is_get (trace b)
       then match w_time w with Ok ct => [ct] | Raise _ => [] end
       else [])
      ++ match value b with
         | Ok _ => poll_stamps cfg rest (final b)
         | Raise _ => []
         end
  end.

(** At time 2 the camera fails to deliver a frame. *)
Definition w_capture_fails : world :=
  {| w_time := Ok 2;
     w_get := Ok (ok_json (PyDict [("current_source", PyStr "camera_0")]));
     w_sleep := Ok tt; w_capture := Raise RuntimeError; w_encode := Ok "/9j/4AAQ";
     w_post := Ok (ok_json (PyDict [])) |}.

(** A 200 answer whose body the upload handles without an exception. *)
Definition body_handled (body : pyval) : Prop :=
  py_in "is_active" body = Ok false \/
  exists items flag, body = PyDict items /\ lookup "is_active" items = Some flag.

(** The field [k] of a decoded JSON object; a body that is no object
    has no field. *)
Definition object_field (k : string) (body : pyval) : option pyval :=
  match body with
  | PyDict items => lookup k items
  | _ => None
  end.

(** A decoded body on which [k in body] raises: [null], a boolean or a
    number. *)
Definition is_scalar (body : pyval) : bool :=
  match body with
  | PyNone | PyBool _ | PyInt _ | PyFloat _ => true
  | _ => false
  end.

(** At time [t] the status endpoint answers 200 with the body [null]. *)
Definition w_poll_null (t : Q) : world :=
  {| w_time := Ok t; w_get := Ok (ok_json PyNone);
     w_sleep := Ok tt; w_capture := Ok tt; w_encode := Ok "/9j/4AAQ";
     w_post := Ok (ok_json (PyDict [])) |}.




(** At time 2 the upload is answered with 200 and the body [null]. *)
Definition w_post_null : world := quiet_world 2 "camera_0" PyNone.

(** ** Proof tools *)

Unset Implicit Arguments.

Arguments Qminus : simpl never.
Arguments Qplus : simpl never.
Arguments Qdiv : simpl never.
Arguments Qle_bool : simpl never.
Arguments Qeq_bool : simpl never.
Arguments String.eqb : simpl never.
Arguments Z.eqb : simpl never.
Arguments Z.modulo : simpl never.
Arguments Z.add : simpl never.
Arguments lookup : simpl never.
Arguments is_substring : simpl never.
Arguments inject_Z : simpl never.
Arguments status_poll : simpl never.
Arguments upload : simpl never.
Arguments frame_step : simpl never.
Arguments loop_body : simpl never.
Arguments init_loop : simpl never.
Arguments one_over : simpl never.

Ltac unfold_monad :=
  unfold bind, try_except, when, read, assign, call, answer_of, log, emit,
    ret, raise in *.

(** Case analysis on the innermost scrutinee the goal is stuck on. *)
Ltac break_step :=
  match goal with
  | |- context [match ?x with _ => _ end] =>
      lazymatch x with
      | context [match _ with _ => _ end] => fail
      | _ => let E := fresh "E" in destruct x eqn:E
      end
  | |- context [if ?x then _ else _] =>
      lazymatch x with
      | context [if _ then _ else _] => fail
      | _ => let E := fresh "E" in destruct x eqn:E
      end
  end.

Ltac crunch := repeat (cbn in *; try break_step).

(** Case analysis on the booleans the goal still depends on. *)
Ltac case_flags :=
  repeat match goal with
         | H : context [py_eq_str ?a ?b] |- _ => destruct (py_eq_str a b)
         | |- context [py_eq_str ?a ?b] => destruct (py_eq_str a b)
         | |- context [is_active ?x] => destruct (is_active x)
         end;
  cbn in *; try discriminate; try reflexivity.

(** Membership of a request or a sleep in an explicit trace. *)
Ltac in_trace :=
  repeat match goal with
         | H : In _ _ |- _ => cbn in H
         | H : _ \/ _ |- _ => destruct H as [H|H]
         | H : False |- _ => contradiction
         | H : ESleep _ = ESleep _ |- _ => inversion H; clear H; subst
         | H : EPost _ _ _ _ = EPost _ _ _ _ |- _ => inversion H; clear H; subst
         | H : @eq event _ _ |- _ => discriminate H
         end;
  auto.

(** The two operations on a decoded body raise nothing but [TypeError]
    and the [KeyError] of a missing key. *)
Lemma py_in_raises k v e : py_in k v = Raise e -> e = TypeError.
Proof. destruct v; cbn; intros H; inversion H; reflexivity. Qed.

Lemma py_getitem_raises v k e :
  py_getitem v k = Raise e -> e = TypeError \/ e = RuntimeError.
Proof.
  destruct v; cbn; intros H; try (inversion H; auto; fail).
  destruct (lookup k items); inversion H; auto.
Qed.

(** Sequencing, read through the projections of the first outcome. *)
Lemma bind_unfold {A B} (m : M A) (k : A -> M B) (l : locals) :
  bind m k l =
    match value (m l) with
    | Ok a =>
        {| trace := trace (m l) ++ trace (k a (final (m l)));
           final := final (k a (final (m l)));
           value := value (k a (final (m l))) |}
    | Raise e => {| trace := trace (m l); final := final (m l); value := Raise e |}
    end.
Proof.
  unfold bind. destruct (m l) as [t l1 [a|e]]; cbn; [destruct (k a l1)|]; reflexivity.
Qed.

(** [1.0 / n] on a few values of [--fps], as Python computes them. *)
Example one_over_values :
  one_over 12 = Ok (6004799503160661 # 72057594037927936)
  /\ one_over 10 = Ok (3602879701896397 # 36028797018963968)
  /\ one_over 4 = Ok (1 # 4)
  /\ one_over (-4) = Ok (-1 # 4)
  /\ one_over 0 = Raise ZeroDivisionError
  /\ one_over (2 ^ 1024 - 2 ^ 970 - 1) = Ok (1 # Z.to_pos (2 ^ 1024))
  /\ one_over (2 ^ 1024 - 2 ^ 970) = Raise OverflowError
  /\ one_over (10 ^ 309) = Raise OverflowError.
Proof. vm_compute. repeat split; reflexivity. Qed.

(** ** What each phase leaves alone *)

Section Frames.
Variables (cfg : config) (w : world).

(** The poll issues a GET and logs; it touches no frame. *)
Lemma status_poll_no_frame_event ct l :
  existsb is_frame_event (trace (status_poll cfg w ct l)) = false.
Proof. unfold status_poll. unfold_monad. crunch; reflexivity. Qed.


(** The poll assigns [is_active], [last_status_check] and
    [status_check_interval] only. *)
Lemma status_poll_keeps ct l :
  let l' := final (status_poll cfg w ct l) in
  picam l' = picam l /\ frame_interval l' = frame_interval l /\
  last_frame_time l' = last_frame_time l /\ frame_count l' = frame_count l.
Proof. unfold status_poll. unfold_monad. crunch; auto. Qed.

(** The upload assigns [frame_count] and [is_active] only. *)
Lemma upload_keeps elapsed frame l :
  let l' := final (upload cfg w elapsed frame l) in
  picam l' = picam l /\ frame_interval l' = frame_interval l /\
  last_frame_time l' = last_frame_time l /\
  last_status_check l' = last_status_check l /\
  status_check_interval l' = status_check_interval l.
Proof. unfold upload. unfold_monad. crunch; auto. Qed.

(** The upload can clear [is_active]; it never sets it. *)
Lemma upload_never_activates elapsed frame l :
  is_active l = false ->
  is_active (final (upload cfg w elapsed frame l)) = false.
Proof. unfold upload. unfold_monad. intros H. crunch; auto. Qed.

(** The frame phase assigns [frame_count], [is_active] and
    [last_frame_time] only. *)
Lemma frame_step_keeps ct l :
  let l' := final (frame_step cfg w ct l) in
  picam l' = picam l /\ frame_interval l' = frame_interval l /\
  last_status_check l' = last_status_check l /\
  status_check_interval l' = status_check_interval l.
Proof. unfold frame_step, upload. unfold_monad. crunch; auto. Qed.

Lemma frame_step_never_activates ct l :
  is_active l = false -> is_active (final (frame_step cfg w ct l)) = false.
Proof. unfold frame_step. unfold_monad. intros H. rewrite H. crunch; auto. Qed.

(** One iteration, once the clock has answered: the poll, then the
    frame phase from where the poll left the locals. *)
Lemma loop_body_unfold ct l :
  w_time w = Ok ct ->
  let p := status_poll cfg w ct l in
  loop_body cfg w l =
    match value p with
    | Ok _ =>
        let f := frame_step cfg w ct (final p) in
        {| trace := trace p ++ trace f; final := final f; value := value f |}
    | Raise e => {| trace := trace p; final := final p; value := Raise e |}
    end.
Proof.
  intros H p. unfold loop_body. rewrite bind_unfold. unfold answer_of at 1 2 3 4.
  rewrite H. cbn. rewrite bind_unfold. fold p. destruct (value p); reflexivity.
Qed.

Lemma loop_body_clock_raises e l :
  w_time w = Raise e ->
  loop_body cfg w l = {| trace := []; final := l; value := Raise e |}.
Proof.
  intros H. unfold loop_body, bind, answer_of. rewrite H. reflexivity.
Qed.

End Frames.

(** ** The activation gate *)

Lemma frame_step_gate cfg w ct l :
  is_active l = false ->
  existsb is_frame_event (trace (frame_step cfg w ct l)) = false.
Proof.
  intros H. unfold frame_step. unfold_monad. rewrite H. reflexivity.
Qed.

(** C1.  In every iteration of the streaming loop, if [is_active] is false
    when the activation gate tests it (after the poll phase of that
    iteration), the iteration captures, encodes and posts nothing; an
    iteration that does capture, encode or post has found [is_active] true
    at the gate. *)
Theorem inactive_iteration_uploads_nothing (cfg : config) (w : world) (l : locals) :
  (forall ct, w_time w = Ok ct ->
     is_active (final (status_poll cfg w ct l)) = false ->
     existsb is_frame_event (trace (loop_body cfg w l)) = false)
  /\ (existsb is_frame_event (trace (loop_body cfg w l)) = true ->
      exists ct, w_time w = Ok ct /\
                 value (status_poll cfg w ct l) = Ok tt /\
                 is_active (final (status_poll cfg w ct l)) = true).
Proof.
  assert (G : forall ct, w_time w = Ok ct ->
     is_active (final (status_poll cfg w ct l)) = false ->
     existsb is_frame_event (trace (loop_body cfg w l)) = false).
  { intros ct Ht Hin. rewrite (loop_body_unfold cfg w ct l Ht). cbv zeta.
    destruct (value (status_poll cfg w ct l)); cbn.
    - rewrite existsb_app, status_poll_no_frame_event, frame_step_gate; auto.
    - apply status_poll_no_frame_event. }
  split; [exact G|].
  intros Hev. destruct (w_time w) as [ct|e] eqn:Ht.
  - exists ct. split; [reflexivity|].
    destruct (is_active (final (status_poll cfg w ct l))) eqn:Ha.
    + split; [|reflexivity].
      rewrite (loop_body_unfold cfg w ct l Ht) in Hev. cbv zeta in Hev.
      destruct (value (status_poll cfg w ct l)) as [[]|e]; [reflexivity|].
      cbn in Hev. rewrite status_poll_no_frame_event in Hev. discriminate.
    + rewrite (G ct eq_refl Ha) in Hev. discriminate.
  - rewrite (loop_body_clock_raises cfg w e l Ht) in Hev. discriminate.
Qed.

Lemma inactive_iteration_uploads_nothing_witness :
  existsb is_frame_event (trace (loop_body sample_cfg w_other at_loop_entry)) = false
  /\ exists ct, w_time w_activate = Ok ct /\
       value (status_poll sample_cfg w_activate ct at_loop_entry) = Ok tt /\
       is_active (final (status_poll sample_cfg w_activate ct at_loop_entry)) = true.
Proof.
  split.
  - apply (proj1 (inactive_iteration_uploads_nothing sample_cfg w_other at_loop_entry) 1);
      reflexivity.
  - apply (proj2 (inactive_iteration_uploads_nothing sample_cfg w_activate at_loop_entry)).
    reflexivity.
Defined.

(** ** The status poll *)

Section StatusPoll.
Variables (cfg : config) (w : world) (ct : Q) (l : locals).

Let o := status_poll cfg w ct l.


(** An exception raised by the GET itself. *)
Lemma status_poll_get_raises e :
  poll_due ct l = true -> w_get w = Raise e ->
  is_active (final o) = is_active l /\
  status_check_interval (final o) = status_check_interval l /\
  (is_Exception e = true ->
     value o = Ok tt /\ last_status_check (final o) = ct /\
     trace o = [EGet (status_url cfg) 1; ELog ERROR (MsgStatusError e)]).
Proof.
  unfold o, status_poll, poll_due. unfold_monad. cbn. intros -> ->. cbn.
  destruct (is_Exception e); cbn; auto. repeat split; discriminate.
Qed.

(** An answer with a status other than 200. *)
Lemma status_poll_not_200 r :
  poll_due ct l = true -> w_get w = Ok r -> status_code r <> 200%Z ->
  value o = Ok tt /\ is_active (final o) = is_active l /\
  last_status_check (final o) = ct /\
  status_check_interval (final o) = (if is_active l then 3 else 1#2) /\
  existsb is_status_error (trace o) = false.
Proof.
  unfold o, status_poll, poll_due. unfold_monad. cbn. intros -> -> H. cbn.
  apply Z.eqb_neq in H. rewrite H. cbn. destruct (is_active l); auto.
Qed.

(** A 200 answer whose body is an object with [current_source]. *)
Lemma status_poll_source r items src :
  poll_due ct l = true -> w_get w = Ok r -> status_code r = 200%Z ->
  json r = Ok (PyDict items) -> lookup "current_source" items = Some src ->
  value o = Ok tt /\
  is_active (final o) = py_eq_str src (camera_id cfg) /\
  last_status_check (final o) = ct /\
  status_check_interval (final o) =
    (if py_eq_str src (camera_id cfg) then 3 else 1#2).
Proof.
  unfold o, status_poll, poll_due. unfold_monad. cbn. intros -> -> H200 Hj Hs.
  cbn. rewrite (proj2 (Z.eqb_eq _ _) H200), Hj. cbn. rewrite Hs. cbn.
  destruct (py_eq_str src (camera_id cfg)), (is_active l); cbn; auto.
Qed.

(** A 200 answer whose body does not contain [current_source]. *)
Lemma status_poll_no_source r body :
  poll_due ct l = true -> w_get w = Ok r -> status_code r = 200%Z ->
  json r = Ok body -> py_in "current_source" body = Ok false ->
  o = {| trace := [EGet (status_url cfg) 1];
         final := set_status_check_interval (if is_active l then 3 else 1#2)
                    (set_last_status_check ct l);
         value := Ok tt |}.
Proof.
  unfold o, status_poll, poll_due. unfold_monad. cbn. intros -> -> H200 Hj Hin.
  cbn. rewrite (proj2 (Z.eqb_eq _ _) H200), Hj. cbn. rewrite Hin. cbn.
  destruct (is_active l); reflexivity.
Qed.


(** An exception the poll does not catch leaves the locals alone. *)
Lemma status_poll_propagates e :
  value o = Raise e -> is_Exception e = false /\ final o = l.
Proof.
  unfold o, status_poll, poll_due. unfold_monad.
  crunch; intros H; inversion H; subst; auto; try discriminate.
Qed.

(** [is_active] turns true in a poll only on a 200 answer whose object
    names this camera. *)
Lemma status_poll_activates :
  is_active l = false -> is_active (final o) = true ->
  poll_due ct l = true /\
  exists r items, w_get w = Ok r /\ status_code r = 200%Z /\
    json r = Ok (PyDict items) /\
    lookup "current_source" items = Some (PyStr (camera_id cfg)).
Proof.
  unfold o, status_poll, poll_due. unfold_monad. intros Hl. cbn.
  destruct (Qgeb (ct - last_status_check l) (status_check_interval l)) eqn:Hdue;
    cbn; [|congruence].
  destruct (w_get w) as [r|e]; cbn; [|destruct (is_Exception e); cbn; congruence].
  destruct (Z.eqb (status_code r) 200) eqn:H200; cbn; [|rewrite Hl; cbn; congruence].
  destruct (json r) as [body|e] eqn:Hj; cbn;
    [|destruct (is_Exception e); cbn; congruence].
  destruct body as [ | | | | s | elems | items]; cbn; try congruence.
  - destruct (is_substring "current_source" s); cbn; [congruence|].
    rewrite Hl; cbn; congruence.
  - destruct (existsb (fun x => py_eq_str x "current_source") elems); cbn;
      [congruence|]. rewrite Hl; cbn; congruence.
  - destruct (lookup "current_source" items) as [src|] eqn:Hk; cbn;
      [|rewrite Hl; cbn; congruence].
    destruct (py_eq_str src (camera_id cfg)) eqn:Heq; rewrite Hl; cbn;
      [|congruence].
    intros _. split; [reflexivity|]. exists r, items.
    destruct src; cbn in Heq; try discriminate.
    apply String.eqb_eq in Heq. apply Z.eqb_eq in H200. subst. auto.
Qed.

End StatusPoll.

(** C3.  At every status-poll attempt: a 200 answer whose JSON object has
    [current_source] makes [is_active] equal to
    [current_source == camera_id], true exactly when the field is this
    camera's id; a GET that raises (timeout, connection error) or answers
    with another status leaves [is_active] as it was, and neither ends the
    loop. *)
Theorem poll_decides_is_active (cfg : config) (w : world) (ct : Q) (l : locals) :
  poll_due ct l = true ->
  let o := status_poll cfg w ct l in
  (forall r items src,
      w_get w = Ok r -> status_code r = 200%Z ->
      json r = Ok (PyDict items) -> lookup "current_source" items = Some src ->
      is_active (final o) = py_eq_str src (camera_id cfg) /\
      (is_active (final o) = true <-> src = PyStr (camera_id cfg)))
  /\ (forall e, w_get w = Raise e ->
        is_active (final o) = is_active l /\
        (is_Exception e = true -> value o = Ok tt))
  /\ (forall r, w_get w = Ok r -> status_code r <> 200%Z ->
        is_active (final o) = is_active l /\ value o = Ok tt).
Proof.
  intros Hdue o. split; [|split].
  - intros r items src Hg H200 Hj Hk.
    destruct (status_poll_source cfg w ct l r items src Hdue Hg H200 Hj Hk)
      as (_ & Hs & _).
    fold o in Hs. split; [exact Hs|]. rewrite Hs. split.
    + intros Ha. destruct src; cbn in Ha; try discriminate.
      apply String.eqb_eq in Ha. subst. reflexivity.
    + intros ->. cbn. apply String.eqb_refl.
  - intros e Hg.
    destruct (status_poll_get_raises cfg w ct l e Hdue Hg) as (Ha & _ & He).
    split; [exact Ha|]. intros Hc. apply (He Hc).
  - intros r Hg Hs.
    destruct (status_poll_not_200 cfg w ct l r Hdue Hg Hs) as (Hv & Ha & _).
    split; assumption.
Qed.

Lemma poll_decides_is_active_witness :
  (is_active (final (status_poll sample_cfg w_activate 1 at_loop_entry)) = true
   <-> PyStr "camera_0" = PyStr (camera_id sample_cfg))
  /\ is_active (final (status_poll sample_cfg (w_poll_timeout 5) 5 once_active))
     = is_active once_active
  /\ is_active (final (status_poll sample_cfg (w_poll_503 5) 5 once_active))
     = is_active once_active.
Proof.
  split; [|split].
  - apply (proj1 (poll_decides_is_active sample_cfg w_activate 1 at_loop_entry eq_refl)
             (ok_json (PyDict [("current_source", PyStr "camera_0")]))
             [("current_source", PyStr "camera_0")] (PyStr "camera_0"));
      reflexivity.
  - apply (proj1 (proj2 (poll_decides_is_active sample_cfg (w_poll_timeout 5) 5
                           once_active eq_refl)) Timeout).
    reflexivity.
  - apply (proj2 (proj2 (poll_decides_is_active sample_cfg (w_poll_503 5) 5
                           once_active eq_refl))
             {| status_code := 503; json := Raise ValueError |}).
    + reflexivity.
    + cbn. discriminate.
Defined.

(** A 200 answer on whose body the test of line 80 raises: the [except]
    clause runs, and line 95 is not reached. *)
Lemma status_poll_test_raises cfg w ct l r body e :
  poll_due ct l = true -> w_get w = Ok r -> status_code r = 200%Z ->
  json r = Ok body -> py_in "current_source" body = Raise e ->
  status_poll cfg w ct l =
    {| trace := [EGet (status_url cfg) 1; ELog ERROR (MsgStatusError e)];
       final := set_last_status_check ct l;
       value := Ok tt |}.
Proof.
  unfold status_poll, poll_due. unfold_monad. cbn. intros -> -> H200 Hj Hin.
  cbn. rewrite (proj2 (Z.eqb_eq _ _) H200), Hj. cbn. rewrite Hin. cbn.
  rewrite (py_in_raises _ _ _ Hin). reflexivity.
Qed.

(** C9, as stated, fails on the code.  At loop entry ([is_active] false,
    interval 1.0) a poll answered with 200 and the body [null] has no
    [current_source] field; the test of line 80 raises [TypeError], the
    [except] clause resets [last_status_check] and logs the error, and the
    interval is not re-evaluated: it stays 1.0 where [is_active] asks for
    0.5. *)
Lemma poll_without_source_timer_broken :
  let o := status_poll sample_cfg (w_poll_null 1) 1 at_loop_entry in
  poll_due 1 at_loop_entry = true
  /\ object_field "current_source" PyNone = None
  /\ is_active (final o) = is_active at_loop_entry
  /\ last_status_check (final o) = 1
  /\ ~ status_check_interval (final o) == (if is_active (final o) then 3 else 1#2)
  /\ existsb is_status_error (trace o) = true.
Proof.
  cbv zeta. repeat split; try reflexivity.
  intros H. vm_compute in H. discriminate H.
Qed.

(** C9, amended.  A status poll answered with 200 and a body on which the
    test ['current_source' in status_data] is false (an object without the
    key, a list without that element, a string without that text) leaves
    [is_active] as it was, sets [last_status_check] to the current time and
    re-evaluates [status_check_interval] from [is_active], as a poll that
    found the field does.  On a body on which the test raises ([null], a
    boolean, a number) the poll leaves [is_active] as it was, logs the
    error and sets [last_status_check] to the current time, and leaves
    [status_check_interval] as it was. *)
Theorem poll_without_source_advances_timer
    (cfg : config) (w : world) (ct : Q) (l : locals) (r : response) (body : pyval) :
  poll_due ct l = true ->
  w_get w = Ok r -> status_code r = 200%Z -> json r = Ok body ->
  let o := status_poll cfg w ct l in
  (py_in "current_source" body = Ok false ->
     is_active (final o) = is_active l /\
     last_status_check (final o) = ct /\
     status_check_interval (final o) = (if is_active (final o) then 3 else 1#2) /\
     value o = Ok tt /\
     existsb is_status_error (trace o) = false)
  /\ (is_scalar body = true ->
      py_in "current_source" body = Raise TypeError /\
      is_active (final o) = is_active l /\
      last_status_check (final o) = ct /\
      status_check_interval (final o) = status_check_interval l /\
      value o = Ok tt /\
      In (ELog ERROR (MsgStatusError TypeError)) (trace o))
  /\ (is_scalar body = false -> exists b, py_in "current_source" body = Ok b).
Proof.
  intros Hdue Hg H200 Hj o. split; [|split].
  - intros Hin. unfold o.
    rewrite (status_poll_no_source cfg w ct l r body Hdue Hg H200 Hj Hin). cbn. auto.
  - intros Hs.
    assert (Hin : py_in "current_source" body = Raise TypeError).
    { destruct body; cbn in Hs; try discriminate Hs; reflexivity. }
    split; [exact Hin|]. unfold o.
    rewrite (status_poll_test_raises cfg w ct l r body TypeError Hdue Hg H200 Hj Hin).
    cbn. auto 10.
  - intros Hs. destruct body; cbn in Hs; try discriminate Hs; cbn; eauto.
Qed.

Lemma poll_without_source_advances_timer_witness :
  (let o := status_poll sample_cfg (w_poll_no_source 5) 5 once_active in
   is_active (final o) = is_active once_active /\
   last_status_check (final o) = 5 /\
   status_check_interval (final o) = (if is_active (final o) then 3 else 1#2) /\
   value o = Ok tt /\
   existsb is_status_error (trace o) = false)
  /\ (let o := status_poll sample_cfg (w_poll_null 1) 1 at_loop_entry in
      py_in "current_source" PyNone = Raise TypeError /\
      is_active (final o) = is_active at_loop_entry /\
      last_status_check (final o) = 1 /\
      status_check_interval (final o) = status_check_interval at_loop_entry /\
      value o = Ok tt /\
      In (ELog ERROR (MsgStatusError TypeError)) (trace o)).
Proof.
  split.
  - apply (proj1 (@poll_without_source_advances_timer sample_cfg (w_poll_no_source 5) 5
             once_active (ok_json (PyDict [("uptime", PyInt 42)]))
             (PyDict [("uptime", PyInt 42)]) eq_refl eq_refl eq_refl eq_refl)).
    reflexivity.
  - apply (proj1 (proj2 (@poll_without_source_advances_timer sample_cfg (w_poll_null 1) 1
             at_loop_entry (ok_json PyNone) PyNone eq_refl eq_refl eq_refl eq_refl))).
    reflexivity.
Defined.

(** ** The polling interval *)




(** ** The upload *)

Section Upload.
Variables (cfg : config) (w : world) (elapsed : Q) (frame : string) (l : locals).

Let u := upload cfg w elapsed frame l.

(** 200 with a falsy [is_active] in the answer: the activation is
    revoked on the spot, also when the throughput log that may follow
    fails. *)
Lemma upload_revoked r items flag :
  w_post w = Ok r -> status_code r = 200%Z -> json r = Ok (PyDict items) ->
  lookup "is_active" items = Some flag -> truthy flag = false ->
  is_active (final u) = false /\ In (ELog INFO MsgServerRevoked) (trace u).
Proof.
  unfold u, upload. unfold_monad. cbn. intros -> H200 Hj Hk Hf. cbn.
  rewrite (proj2 (Z.eqb_eq _ _) H200), Hj. cbn. rewrite Hk. cbn. rewrite Hf.
  crunch; auto.
Qed.

(** 200 with a truthy [is_active] in the answer. *)
Lemma upload_confirmed r items flag :
  w_post w = Ok r -> status_code r = 200%Z -> json r = Ok (PyDict items) ->
  lookup "is_active" items = Some flag -> truthy flag = true ->
  is_active (final u) = is_active l /\
  ~ In (ELog INFO MsgServerRevoked) (trace u).
Proof.
  unfold u, upload. unfold_monad. cbn. intros -> H200 Hj Hk Hf. cbn.
  rewrite (proj2 (Z.eqb_eq _ _) H200), Hj. cbn. rewrite Hk. cbn. rewrite Hf.
  crunch; split; auto; intros H; repeat destruct H as [H|H]; discriminate || auto.
Qed.

(** 200 with an answer that does not contain [is_active]. *)
Lemma upload_without_flag r body :
  w_post w = Ok r -> status_code r = 200%Z -> json r = Ok body ->
  py_in "is_active" body = Ok false ->
  is_active (final u) = is_active l /\
  frame_count (final u) = (frame_count l + 1)%Z /\
  ~ In (ELog INFO MsgServerRevoked) (trace u).
Proof.
  unfold u, upload. unfold_monad. cbn. intros -> H200 Hj Hin. cbn.
  rewrite (proj2 (Z.eqb_eq _ _) H200), Hj. cbn. rewrite Hin.
  crunch; repeat split; auto; intros H; repeat destruct H as [H|H]; discriminate || auto.
Qed.

(** A status other than 200: a warning, nothing else. *)
Lemma upload_not_200 r :
  w_post w = Ok r -> status_code r <> 200%Z ->
  u = {| trace := [EPost (stream_url cfg) (camera_id cfg) frame 1;
                   ELog WARNING (MsgSendFailed (status_code r))];
         final := l; value := Ok tt |}.
Proof.
  unfold u, upload. unfold_monad. cbn. intros -> H. cbn.
  apply Z.eqb_neq in H. rewrite H. reflexivity.
Qed.

(** The POST raises a [RequestException]: an error line, one second of
    sleep, and the locals as they were. *)
Lemma upload_transport_error e :
  w_post w = Raise e -> is_RequestException e = true ->
  u = {| trace := [EPost (stream_url cfg) (camera_id cfg) frame 1;
                   ELog ERROR (MsgConnectionError e); ESleep 1];
         final := l; value := w_sleep w |}.
Proof.
  unfold u, upload. unfold_monad. cbn. intros -> He. cbn. rewrite He.
  reflexivity.
Qed.

End Upload.

(** ** One iteration that posts a frame *)

Lemma status_poll_no_post cfg w ct l :
  existsb is_post (trace (status_poll cfg w ct l)) = false.
Proof. unfold status_poll. unfold_monad. crunch; reflexivity. Qed.

(** A frame phase that posts has passed both gates, captured and encoded;
    what follows the POST is the upload's. *)
Lemma frame_step_posted cfg w ct l :
  existsb is_post (trace (frame_step cfg w ct l)) = true ->
  exists frame,
    let elapsed := ct - last_frame_time l in
    let u := upload cfg w elapsed frame l in
    is_active l = true /\
    Qltb elapsed (frame_interval l) = false /\
    w_capture w = Ok tt /\ w_encode w = Ok frame /\
    trace (frame_step cfg w ct l) = ECapture ct :: EEncode (quality cfg) :: trace u /\
    value (frame_step cfg w ct l) = value u /\
    final (frame_step cfg w ct l) =
      match value u with
      | Ok _ => set_last_frame_time ct (final u)
      | Raise _ => final u
      end.
Proof.
  unfold frame_step. unfold_monad. cbn.
  destruct (is_active l) eqn:Ha; cbn; [|discriminate].
  destruct (Qltb (ct - last_frame_time l) (frame_interval l)) eqn:Hp; cbn;
    [discriminate|].
  destruct (w_capture w) as [[]|e] eqn:Hc; cbn; [|discriminate].
  destruct (w_encode w) as [frame|e] eqn:He; cbn; [|discriminate].
  intros _. exists frame.
  destruct (upload cfg w (ct - last_frame_time l) frame l) as [t l1 [[]|e]];
    cbn; rewrite ?app_nil_r; repeat split; reflexivity.
Qed.

(** The same for the whole iteration. *)
Lemma loop_body_posted cfg w l :
  existsb is_post (trace (loop_body cfg w l)) = true ->
  exists ct,
    let p := status_poll cfg w ct l in
    let f := frame_step cfg w ct (final p) in
    w_time w = Ok ct /\ value p = Ok tt /\
    existsb is_post (trace f) = true /\
    loop_body cfg w l =
      {| trace := trace p ++ trace f; final := final f; value := value f |}.
Proof.
  intros H. destruct (w_time w) as [ct|e] eqn:Ht.
  - exists ct. cbv zeta. rewrite (loop_body_unfold cfg w ct l Ht) in *. cbv zeta in *.
    destruct (value (status_poll cfg w ct l)) as [[]|e]; cbn in H.
    + rewrite existsb_app, status_poll_no_post in H. cbn in H. auto.
    + rewrite status_poll_no_post in H. discriminate.
  - rewrite (loop_body_clock_raises cfg w e l Ht) in H. discriminate.
Qed.

(** C4.  When a frame upload is answered with 200 and a JSON object whose
    [is_active] is false (or any falsy value), [is_active] is false at the
    end of that same iteration, and the revocation is logged: no status
    poll is waited for. *)
Theorem upload_revocation_is_immediate
    (cfg : config) (w : world) (l : locals)
    (r : response) (items : list (string * pyval)) (flag : pyval) :
  w_post w = Ok r -> status_code r = 200%Z -> json r = Ok (PyDict items) ->
  lookup "is_active" items = Some flag -> truthy flag = false ->
  existsb is_post (trace (loop_body cfg w l)) = true ->
  is_active (final (loop_body cfg w l)) = false /\
  In (ELog INFO MsgServerRevoked) (trace (loop_body cfg w l)).
Proof.
  intros Hp H200 Hj Hk Hf Hposted.
  destruct (loop_body_posted cfg w l Hposted) as (ct & Ht & Hv & Hpf & Heq).
  destruct (frame_step_posted cfg w ct _ Hpf) as (frame & Ha & _ & _ & _ & Htr & _ & Hfin).
  cbv zeta in *.
  set (p := status_poll cfg w ct l) in *.
  destruct (upload_revoked cfg w (ct - last_frame_time (final p)) frame (final p)
              r items flag Hp H200 Hj Hk Hf) as (Hoff & Hlog).
  rewrite Heq. cbn. split.
  - rewrite Hfin.
    destruct (value (upload cfg w (ct - last_frame_time (final p)) frame (final p)));
      cbn; exact Hoff.
  - apply in_or_app. right. rewrite Htr. right. right. exact Hlog.
Qed.

Lemma upload_revocation_is_immediate_witness :
  is_active (final (loop_body sample_cfg w_revoke once_active)) = false /\
  In (ELog INFO MsgServerRevoked) (trace (loop_body sample_cfg w_revoke once_active)).
Proof.
  apply (@upload_revocation_is_immediate sample_cfg w_revoke once_active
           (ok_json (PyDict [("is_active", PyBool false)]))
           [("is_active", PyBool false)] (PyBool false));
    reflexivity.
Defined.

(** C6.  When the POST of a frame raises a transport error (a
    [RequestException]: timeout, connection error), the iteration ends
    with the POST, an error line and a sleep of 1.0 s; the upload handling
    changes no local, [is_active] is still true, and the iteration raises
    nothing unless that sleep is itself interrupted: the loop goes on. *)
Theorem transport_error_backs_off
    (cfg : config) (w : world) (l : locals) (e : exn) :
  w_post w = Raise e -> is_RequestException e = true ->
  existsb is_post (trace (loop_body cfg w l)) = true ->
  let b := loop_body cfg w l in
  (forall elapsed frame l', final (upload cfg w elapsed frame l') = l')
  /\ (exists pre frame,
        trace b = pre ++ [EPost (stream_url cfg) (camera_id cfg) frame 1;
                          ELog ERROR (MsgConnectionError e); ESleep 1])
  /\ is_active (final b) = true
  /\ value b = w_sleep w
  /\ (w_sleep w = Ok tt ->
      forall rest, streaming_loop cfg (w :: rest) l =
                   let o := streaming_loop cfg rest (final b) in
                   {| trace := trace b ++ trace o; final := final o; value := value o |}).
Proof.
  intros Hp He Hposted b.
  destruct (loop_body_posted cfg w l Hposted) as (ct & Ht & Hv & Hpf & Heq).
  destruct (frame_step_posted cfg w ct _ Hpf) as (frame & Ha & _ & _ & _ & Htr & Hval & Hfin).
  cbv zeta in *.
  set (p := status_poll cfg w ct l) in *.
  pose proof (upload_transport_error cfg w (ct - last_frame_time (final p)) frame
                (final p) e Hp He) as Hu.
  rewrite Hu in Htr, Hval, Hfin. cbn in Htr, Hval, Hfin.
  assert (Hb_val : value b = w_sleep w).
  { unfold b. rewrite Heq. cbn. exact Hval. }
  split; [|split; [|split; [|split]]].
  - intros elapsed fr l'. rewrite (upload_transport_error cfg w elapsed fr l' e Hp He).
    reflexivity.
  - exists (trace p ++ [ECapture ct; EEncode (quality cfg)]), frame.
    unfold b. rewrite Heq. cbn. rewrite Htr, <- app_assoc. reflexivity.
  - unfold b. rewrite Heq. cbn. rewrite Hfin. destruct (w_sleep w); cbn; exact Ha.
  - exact Hb_val.
  - intros Hs rest. cbn [streaming_loop]. rewrite bind_unfold. fold b.
    rewrite Hb_val, Hs. reflexivity.
Qed.

Lemma transport_error_backs_off_witness :
  let b := loop_body sample_cfg w_post_refused once_active in
  trace b = [ECapture 2; EEncode 70;
             EPost (stream_url sample_cfg) "camera_0" "/9j/4AAQ" 1;
             ELog ERROR (MsgConnectionError ConnectionError); ESleep 1]
  /\ is_active (final b) = true
  /\ value b = Ok tt.
Proof.
  pose proof (@transport_error_backs_off sample_cfg w_post_refused once_active
                ConnectionError eq_refl eq_refl eq_refl) as H.
  cbv zeta in H. destruct H as (_ & _ & Ha & Hv & _).
  split; [reflexivity|]. split; [exact Ha | exact Hv].
Defined.

(** A 200 answer whose body is no object with an [is_active] field:
    whatever else the body is, the upload leaves [is_active] alone. *)
Lemma upload_no_field cfg w elapsed frame l r body :
  w_post w = Ok r -> status_code r = 200%Z -> json r = Ok body ->
  object_field "is_active" body = None ->
  is_active (final (upload cfg w elapsed frame l)) = is_active l /\
  ~ In (ELog INFO MsgServerRevoked) (trace (upload cfg w elapsed frame l)).
Proof.
  unfold upload. unfold_monad. cbn. intros -> H200 Hj Hf. cbn.
  rewrite (proj2 (Z.eqb_eq _ _) H200), Hj. cbn.
  destruct body; cbn in Hf; cbn; rewrite ?Hf;
    crunch; split; auto; intros H; in_trace.
Qed.

(** C7.  When a frame upload is answered with 200 and a JSON body that
    has no [is_active] field (an object without the key, or a body that is
    no object at all), the upload handling leaves [is_active] as it was and
    logs no revocation; the iteration that posted ends with [is_active]
    still true. *)
Theorem upload_without_flag_keeps_activation
    (cfg : config) (w : world) (l : locals) (r : response) (body : pyval) :
  w_post w = Ok r -> status_code r = 200%Z -> json r = Ok body ->
  object_field "is_active" body = None ->
  (forall elapsed frame l',
      is_active (final (upload cfg w elapsed frame l')) = is_active l' /\
      ~ In (ELog INFO MsgServerRevoked) (trace (upload cfg w elapsed frame l')))
  /\ (existsb is_post (trace (loop_body cfg w l)) = true ->
      is_active (final (loop_body cfg w l)) = true).
Proof.
  intros Hp H200 Hj Hf. split.
  - intros elapsed frame l'.
    apply (upload_no_field cfg w elapsed frame l' r body Hp H200 Hj Hf).
  - intros Hposted.
    destruct (loop_body_posted cfg w l Hposted) as (ct & Ht & Hv & Hpf & Heq).
    destruct (frame_step_posted cfg w ct _ Hpf) as (frame & Ha & _ & _ & _ & _ & _ & Hfin).
    cbv zeta in *. set (p := status_poll cfg w ct l) in *.
    destruct (upload_no_field cfg w (ct - last_frame_time (final p)) frame (final p)
                r body Hp H200 Hj Hf) as (Hu & _).
    rewrite Heq. cbn. rewrite Hfin.
    destruct (value (upload cfg w (ct - last_frame_time (final p)) frame (final p)));
      cbn; congruence.
Qed.

Lemma upload_without_flag_keeps_activation_witness :
  is_active (final (upload sample_cfg w_activate 1 "/9j/4AAQ" once_active))
  = is_active once_active
  /\ is_active (final (loop_body sample_cfg w_activate at_loop_entry)) = true
  /\ is_active (final (loop_body sample_cfg w_post_null once_active)) = true.
Proof.
  pose proof (@upload_without_flag_keeps_activation sample_cfg w_activate at_loop_entry
                (ok_json (PyDict [("status", PyStr "ok")]))
                (PyDict [("status", PyStr "ok")]) eq_refl eq_refl eq_refl eq_refl) as H.
  pose proof (@upload_without_flag_keeps_activation sample_cfg w_post_null once_active
                (ok_json PyNone) PyNone eq_refl eq_refl eq_refl eq_refl) as Hn.
  split; [|split].
  - apply (proj1 H).
  - apply (proj2 H). vm_compute. reflexivity.
  - apply (proj2 Hn). vm_compute. reflexivity.
Defined.

(** C10.  The upload answer can only deactivate.  A 200 answer whose JSON
    object carries a truthy [is_active] leaves [is_active] as it was, and
    no upload turns a false [is_active] true.  Across an iteration,
    [is_active] goes from false to true only if the status poll was due and
    was answered with 200 and an object whose [current_source] is this
    camera's id. *)
Theorem upload_only_deactivates (cfg : config) (w : world) (l : locals) :
  (forall elapsed frame l' r items flag,
      w_post w = Ok r -> status_code r = 200%Z -> json r = Ok (PyDict items) ->
      lookup "is_active" items = Some flag -> truthy flag = true ->
      is_active (final (upload cfg w elapsed frame l')) = is_active l')
  /\ (forall elapsed frame l',
      is_active l' = false ->
      is_active (final (upload cfg w elapsed frame l')) = false)
  /\ (is_active l = false -> is_active (final (loop_body cfg w l)) = true ->
      exists ct r items,
        w_time w = Ok ct /\ poll_due ct l = true /\
        w_get w = Ok r /\ status_code r = 200%Z /\
        json r = Ok (PyDict items) /\
        lookup "current_source" items = Some (PyStr (camera_id cfg))).
Proof.
  split; [|split].
  - intros elapsed frame l' r items flag Hp H200 Hj Hk Hf.
    apply (upload_confirmed cfg w elapsed frame l' r items flag Hp H200 Hj Hk Hf).
  - intros elapsed frame l'. apply upload_never_activates.
  - intros Hoff Hon. destruct (w_time w) as [ct|e] eqn:Ht.
    + rewrite (loop_body_unfold cfg w ct l Ht) in Hon. cbv zeta in Hon.
      destruct (value (status_poll cfg w ct l)) as [[]|e] eqn:Hv; cbn in Hon.
      * destruct (is_active (final (status_poll cfg w ct l))) eqn:Hp.
        -- destruct (status_poll_activates cfg w ct l Hoff Hp)
             as (Hdue & r & items & Hg & H200 & Hj & Hk).
           exists ct, r, items. auto 10.
        -- rewrite (frame_step_never_activates cfg w ct _ Hp) in Hon. discriminate.
      * destruct (status_poll_propagates cfg w ct l e Hv) as (_ & Hl).
        rewrite Hl in Hon. congruence.
    + rewrite (loop_body_clock_raises cfg w e l Ht) in Hon. cbn in Hon. congruence.
Qed.

Lemma upload_only_deactivates_witness :
  is_active (final (upload sample_cfg w_confirm 1 "/9j/4AAQ" once_active))
  = is_active once_active
  /\ is_active (final (upload sample_cfg w_confirm 1 "/9j/4AAQ" at_loop_entry)) = false
  /\ exists ct r items,
       w_time w_activate = Ok ct /\ poll_due ct at_loop_entry = true /\
       w_get w_activate = Ok r /\ status_code r = 200%Z /\
       json r = Ok (PyDict items) /\
       lookup "current_source" items = Some (PyStr (camera_id sample_cfg)).
Proof.
  split; [|split].
  - apply (proj1 (upload_only_deactivates sample_cfg w_confirm once_active)
             1 "/9j/4AAQ" once_active (ok_json (PyDict [("is_active", PyBool true)]))
             [("is_active", PyBool true)] (PyBool true));
      reflexivity.
  - apply (proj1 (proj2 (upload_only_deactivates sample_cfg w_confirm once_active))).
    reflexivity.
  - apply (proj2 (proj2 (upload_only_deactivates sample_cfg w_activate at_loop_entry)));
      reflexivity.
Defined.

(** ** Pacing of the captures *)

















(** ** Leaving the program *)

Lemma loop_body_keeps_picam cfg w l :
  picam (final (loop_body cfg w l)) = picam l.
Proof.
  destruct (w_time w) as [ct|e] eqn:Ht.
  - rewrite (loop_body_unfold cfg w ct l Ht). cbv zeta.
    destruct (status_poll_keeps cfg w ct l) as (Hp & _).
    destruct (value (status_poll cfg w ct l)); cbn; [|exact Hp].
    destruct (frame_step_keeps cfg w ct (final (status_poll cfg w ct l))) as (Hf & _).
    congruence.
  - rewrite (loop_body_clock_raises cfg w e l Ht). reflexivity.
Qed.

(** The loop never stops the camera. *)
Lemma loop_body_no_stop cfg w l :
  existsb is_camera_stop (trace (loop_body cfg w l)) = false.
Proof.
  unfold loop_body, status_poll, frame_step, upload. unfold_monad.
  crunch; reflexivity.
Qed.

Lemma streaming_loop_keeps_picam cfg ws :
  forall l,
    picam (final (streaming_loop cfg ws l)) = picam l /\
    existsb is_camera_stop (trace (streaming_loop cfg ws l)) = false.
Proof.
  induction ws as [|w ws IH]; intros l; [split; reflexivity|].
  cbn [streaming_loop]. rewrite bind_unfold.
  pose proof (loop_body_keeps_picam cfg w l) as Hp.
  pose proof (loop_body_no_stop cfg w l) as Hn.
  destruct (value (loop_body cfg w l)); cbn; [|auto].
  destruct (IH (final (loop_body cfg w l))) as (Hp' & Hn').
  rewrite existsb_app, Hn, Hn'. split; [congruence|reflexivity].
Qed.

(** Once [Picamera2()] has returned, [picam] is bound for the rest of the
    [try] block, which does not stop the camera itself. *)
Lemma try_block_binds_picam cfg sw ws l :
  s_camera sw = Ok tt ->
  picam (final (try_block cfg sw ws l)) = true /\
  existsb is_camera_stop (trace (try_block cfg sw ws l)) = false.
Proof.
  intros Hc. unfold try_block, init_loop. unfold_monad. rewrite Hc.
  crunch; try (split; reflexivity).
  match goal with
  | E : streaming_loop ?c ?ws' ?l' = _ |- _ =>
      pose proof (streaming_loop_keeps_picam c ws' l') as HS; rewrite E in HS
  end.
  cbn in HS. exact HS.
Qed.

(** C8.  Whenever [main] is left after [Picamera2()] has returned, by a
    [KeyboardInterrupt] or by any other exception raised in the [try]
    block, its last two actions are stopping the camera and logging the
    shutdown message, and the camera is stopped nowhere before. *)
Theorem camera_released_on_exit
    (cfg : config) (sw : startup) (ws : list world) (p : option exn) :
  s_camera sw = Ok tt ->
  state (main cfg sw ws) = Exited p ->
  exists pre,
    events (main cfg sw ws) = pre ++ [ECameraStop; ELog INFO MsgShutdown] /\
    existsb is_camera_stop pre = false.
Proof.
  intros Hc. unfold main.
  destruct (try_block_binds_picam cfg sw ws unbound Hc) as (Hp & Hn).
  destruct (try_block cfg sw ws unbound) as [t l1 [[]|e]]; cbn in *; [discriminate|].
  intros _.
  assert (Hh : picam (final (handlers e l1)) = true /\
               existsb is_camera_stop (trace (handlers e l1)) = false).
  { destruct e; cbn; auto. }
  destruct Hh as (Hhp & Hhn).
  unfold finally_block. unfold_monad. cbn. rewrite Hhp. cbn.
  eexists (_ :: _ :: _ :: t ++ trace (handlers e l1)). split.
  - cbn. rewrite <- !app_assoc. reflexivity.
  - cbn. rewrite existsb_app, Hn, Hhn. reflexivity.
Qed.

Lemma camera_released_on_exit_witness :
  exists pre,
    events (main sample_cfg sample_startup [w_other; w_interrupt])
    = pre ++ [ECameraStop; ELog INFO MsgShutdown] /\
    existsb is_camera_stop pre = false.
Proof.
  apply (camera_released_on_exit sample_cfg sample_startup [w_other; w_interrupt]
           None);
    reflexivity.
Defined.

(** ** The server URL *)

Lemma append_slashes_assoc (s : string) (n : nat) :
  (s ++ String "/"%char (slashes n))%string = ((s ++ "/") ++ slashes n)%string.
Proof.
  induction s as [|c s IH]; cbn; [reflexivity|]. rewrite IH. reflexivity.
Qed.

Lemma rstrip_slash_one (s : string) :
  rstrip_slash (s ++ "/") = rstrip_slash s.
Proof.
  induction s as [|c s IH]; [reflexivity|].
  cbn [append rstrip_slash]. rewrite IH. reflexivity.
Qed.

Lemma rstrip_slash_many (s : string) (n : nat) :
  rstrip_slash (s ++ slashes n) = rstrip_slash s.
Proof.
  revert s. induction n as [|n IH]; intros s; cbn [slashes].
  - induction s as [|c s IHs]; [reflexivity|].
    cbn [append rstrip_slash]. rewrite IHs. reflexivity.
  - rewrite append_slashes_assoc, IH. apply rstrip_slash_one.
Qed.

Lemma rstrip_slash_spec (s : string) :
  exists n,
    s = (rstrip_slash s ++ slashes n)%string /\
    ends_with_slash (rstrip_slash s) = false.
Proof.
  induction s as [|c s (n & Hs & He)].
  - exists 0%nat. split; reflexivity.
  - cbn [rstrip_slash]. destruct (rstrip_slash s) as [|a r] eqn:Hr.
    + destruct (Ascii.eqb c "/"%char) eqn:Hc.
      * apply Ascii.eqb_eq in Hc. subst c. exists (S n). cbn in *.
        rewrite Hs at 1. split; reflexivity.
      * exists n. cbn in *. rewrite Hc. rewrite Hs at 1. split; reflexivity.
    + exists n. split.
      * cbn [append]. rewrite Hs at 1. reflexivity.
      * exact He.
Qed.

(** X1.  [rstrip('/')] takes away the trailing slashes and nothing else:
    the argument is the result followed by slashes only, the result does
    not end with a slash, and stripping again changes nothing. *)
Theorem rstrip_slash_removes_trailing_slashes (s : string) :
  (exists n, s = (rstrip_slash s ++ slashes n)%string)
  /\ ends_with_slash (rstrip_slash s) = false
  /\ rstrip_slash (rstrip_slash s) = rstrip_slash s.
Proof.
  destruct (rstrip_slash_spec s) as (n & Hs & He).
  split; [exists n; exact Hs|]. split; [exact He|].
  rewrite Hs at 2. rewrite rstrip_slash_many. reflexivity.
Qed.

(** X2.  The two endpoints do not depend on trailing slashes of
    [--server], and the server part they start with does not end with a
    slash: no doubled slash is put before the path. *)
Theorem urls_ignore_trailing_slashes (cfg : config) (s : string) (n : nat) :
  stream_url (with_server cfg (s ++ slashes n)) = stream_url (with_server cfg s)
  /\ status_url (with_server cfg (s ++ slashes n)) = status_url (with_server cfg s)
  /\ ends_with_slash (server_url cfg) = false.
Proof.
  unfold stream_url, status_url, server_url. cbn [server with_server].
  rewrite rstrip_slash_many. repeat split; try reflexivity.
  destruct (rstrip_slash_spec (server cfg)) as (k & _ & He).
  exact He.
Qed.

(** ** The log and the activation state *)

Lemma replay_app a t1 t2 : replay a (t1 ++ t2) = replay (replay a t1) t2.
Proof. unfold replay. apply fold_left_app. Qed.

Lemma frames_while_active_app a t1 t2 :
  frames_while_active a (t1 ++ t2)
  = frames_while_active a t1 && frames_while_active (replay a t1) t2.
Proof.
  revert a. induction t1 as [|e t1 IH]; intros a; [reflexivity|].
  cbn. rewrite IH, andb_assoc. reflexivity.
Qed.

(** Over one iteration the transition lines of the log follow
    [is_active], and frames are handled only while the log says active. *)
Lemma loop_body_replay cfg w l :
  frames_while_active (is_active l) (trace (loop_body cfg w l)) = true /\
  replay (is_active l) (trace (loop_body cfg w l)) = is_active (final (loop_body cfg w l)).
Proof.
  unfold loop_body, status_poll, frame_step, upload. unfold_monad.
  crunch; split; try reflexivity; try congruence; case_flags.
Qed.

Lemma streaming_loop_replay cfg ws :
  forall l,
    frames_while_active (is_active l) (trace (streaming_loop cfg ws l)) = true /\
    replay (is_active l) (trace (streaming_loop cfg ws l))
    = is_active (final (streaming_loop cfg ws l)).
Proof.
  induction ws as [|w ws IH]; intros l; [split; reflexivity|].
  cbn [streaming_loop]. rewrite bind_unfold.
  destruct (loop_body_replay cfg w l) as (Hf & Hr).
  destruct (value (loop_body cfg w l)); cbn [trace final value]; [|auto].
  destruct (IH (final (loop_body cfg w l))) as (Hf' & Hr').
  rewrite frames_while_active_app, replay_app, Hf, Hr, Hf', Hr'. auto.
Qed.

Lemma try_block_replay cfg sw ws l :
  is_active l = false ->
  frames_while_active false (trace (try_block cfg sw ws l)) = true /\
  replay false (trace (try_block cfg sw ws l)) = is_active (final (try_block cfg sw ws l)).
Proof.
  intros Hl. unfold try_block, init_loop. unfold_monad.
  crunch; try (split; [reflexivity|congruence]).
  match goal with
  | E : streaming_loop ?c ?ws' ?l' = _ |- _ =>
      pose proof (streaming_loop_replay c ws' l') as HS; rewrite E in HS
  end.
  cbn in HS. exact HS.
Qed.

(** X3.  In every run of [main] the three transition lines of the log
    (activated, deactivated, revoked by the server) tell the activation
    state: read from the start as inactive they end at the value
    [is_active] has, and every capture, encode and POST of the run lies
    where the log says active. *)
Theorem log_follows_activation (cfg : config) (sw : startup) (ws : list world) :
  frames_while_active false (events (main cfg sw ws)) = true /\
  replay false (events (main cfg sw ws)) = is_active (vars (main cfg sw ws)).
Proof.
  unfold main.
  destruct (try_block_replay cfg sw ws unbound eq_refl) as (Hf & Hr).
  destruct (try_block cfg sw ws unbound) as [t l1 [[]|e]]; cbn [value].
  - cbn [events vars]. change (frames_while_active false t = true /\ replay false t = is_active l1).
    auto.
  - cbn [events vars trace final] in *.
    assert (Hh : forall a, frames_while_active a (trace (handlers e l1)) = true /\
                           replay a (trace (handlers e l1)) = a /\
                           is_active (final (handlers e l1)) = is_active l1).
    { intros a. destruct e; cbn; auto. }
    assert (Hfin : forall a l', frames_while_active a (trace (finally_block l')) = true /\
                                replay a (trace (finally_block l')) = a /\
                                is_active (final (finally_block l')) = is_active l').
    { intros a l'. unfold finally_block. unfold_monad. crunch; auto. }
    destruct (Hh (replay false t)) as (Hh1 & Hh2 & Hh3).
    destruct (Hfin (replay false t) (final (handlers e l1))) as (Hf1 & Hf2 & Hf3).
    change (frames_while_active false
              (t ++ trace (handlers e l1) ++ trace (finally_block (final (handlers e l1))))
            = true /\
            replay false
              (t ++ trace (handlers e l1) ++ trace (finally_block (final (handlers e l1))))
            = is_active (final (finally_block (final (handlers e l1))))).
    rewrite !frames_while_active_app, !replay_app, Hf, Hh1, Hh2, Hf1, Hf2, Hf3, Hh3.
    auto.
Qed.

(** ** The frame counter *)

Lemma count_posts_app t1 t2 :
  count_posts (t1 ++ t2) = (count_posts t1 + count_posts t2)%nat.
Proof. unfold count_posts. rewrite filter_app, length_app. reflexivity. Qed.

(** One iteration adds to [frame_count] at most the POST it made, and
    never takes from it. *)
Lemma loop_body_count cfg w l :
  (frame_count l <= frame_count (final (loop_body cfg w l)))%Z /\
  (frame_count (final (loop_body cfg w l))
   <= frame_count l + Z.of_nat (count_posts (trace (loop_body cfg w l))))%Z.
Proof.
  unfold loop_body, status_poll, frame_step, upload. unfold_monad.
  crunch; lia.
Qed.

Lemma streaming_loop_count cfg ws :
  forall l,
    (frame_count l <= frame_count (final (streaming_loop cfg ws l)))%Z /\
    (frame_count (final (streaming_loop cfg ws l))
     <= frame_count l + Z.of_nat (count_posts (trace (streaming_loop cfg ws l))))%Z.
Proof.
  induction ws as [|w ws IH]; intros l; [cbn; lia|].
  cbn [streaming_loop]. rewrite bind_unfold.
  pose proof (loop_body_count cfg w l) as H.
  destruct (value (loop_body cfg w l)); cbn [trace final]; [|exact H].
  pose proof (IH (final (loop_body cfg w l))) as H'.
  rewrite count_posts_app. lia.
Qed.

Lemma try_block_count cfg sw ws l :
  frame_count l = 0%Z ->
  (0 <= frame_count (final (try_block cfg sw ws l))
   <= Z.of_nat (count_posts (trace (try_block cfg sw ws l))))%Z.
Proof.
  intros Hl. unfold try_block, init_loop. unfold_monad.
  crunch; try lia.
  match goal with
  | E : streaming_loop ?c ?ws' ?l' = _ |- _ =>
      pose proof (streaming_loop_count c ws' l') as HS; rewrite E in HS
  end.
  cbn in HS. unfold count_posts in *. cbn. lia.
Qed.

Lemma handlers_quiet e l :
  final (handlers e l) = l /\ count_posts (trace (handlers e l)) = 0%nat /\
  Forall throughput_ok (trace (handlers e l)).
Proof. destruct e; cbn; repeat split; repeat constructor. Qed.

Lemma finally_quiet l :
  final (finally_block l) = l /\ count_posts (trace (finally_block l)) = 0%nat /\
  Forall throughput_ok (trace (finally_block l)).
Proof.
  unfold finally_block. unfold_monad. crunch; repeat split; repeat constructor.
Qed.

(** An iteration adds one to [frame_count] exactly when its POST was
    answered with 200 and a body that decodes. *)
Lemma loop_body_count_exact cfg w l :
  let b := loop_body cfg w l in
  (forall r body,
      existsb is_post (trace b) = true ->
      w_post w = Ok r -> status_code r = 200%Z -> json r = Ok body ->
      frame_count (final b) = (frame_count l + 1)%Z)
  /\ (frame_count (final b) <> frame_count l ->
      existsb is_post (trace b) = true /\
      exists r body, w_post w = Ok r /\ status_code r = 200%Z /\ json r = Ok body).
Proof.
  cbv zeta. split.
  - intros r body Hposted Hp H200 Hj.
    destruct (loop_body_posted cfg w l Hposted) as (ct & Ht & Hv & Hpf & Heq).
    destruct (frame_step_posted cfg w ct _ Hpf) as (frame & _ & _ & _ & _ & _ & _ & Hfin).
    cbv zeta in *. rewrite Heq. cbn [final]. rewrite Hfin.
    destruct (status_poll_keeps cfg w ct l) as (_ & _ & _ & Hfc).
    set (p := status_poll cfg w ct l) in *.
    assert (Hu : frame_count (final (upload cfg w (ct - last_frame_time (final p))
                                       frame (final p)))
                 = (frame_count (final p) + 1)%Z).
    { unfold upload. unfold_monad. cbn. rewrite Hp. cbn.
      rewrite (proj2 (Z.eqb_eq _ _) H200), Hj. crunch; reflexivity. }
    destruct (value (upload cfg w (ct - last_frame_time (final p)) frame (final p)));
      cbn; rewrite Hu, Hfc; reflexivity.
  - unfold loop_body, status_poll, frame_step, upload. unfold_monad.
    crunch; intros H; try (exfalso; apply H; reflexivity);
      (split; [reflexivity|]); eexists; eexists;
      (split; [reflexivity|]); (split; [apply Z.eqb_eq; eassumption|eassumption]).
Qed.

(** X5.  [frame_count] counts accepted uploads.  In a run it is never
    negative and never more than the number of POSTs made; an iteration
    adds one to it exactly when its POST was answered with 200 and a body
    that decodes, whatever that body says. *)
Theorem frame_count_counts_accepted_uploads
    (cfg : config) (sw : startup) (ws : list world) (w : world) (l : locals) :
  let b := loop_body cfg w l in
  (0 <= frame_count (vars (main cfg sw ws))
   <= Z.of_nat (count_posts (events (main cfg sw ws))))%Z
  /\ (forall r body,
      existsb is_post (trace b) = true ->
      w_post w = Ok r -> status_code r = 200%Z -> json r = Ok body ->
      frame_count (final b) = (frame_count l + 1)%Z)
  /\ (frame_count (final b) <> frame_count l ->
      existsb is_post (trace b) = true /\
      exists r body, w_post w = Ok r /\ status_code r = 200%Z /\ json r = Ok body).
Proof.
  intros b. split; [|apply loop_body_count_exact].
  unfold main. pose proof (try_block_count cfg sw ws unbound eq_refl) as H.
  destruct (try_block cfg sw ws unbound) as [t l1 [[]|e]]; cbn [value events vars trace final] in *.
  - change (0 <= frame_count l1 <= Z.of_nat (count_posts t))%Z. exact H.
  - destruct (handlers_quiet e l1) as (Hh & Hc & _).
    destruct (finally_quiet (final (handlers e l1))) as (Hf & Hc' & _).
    change (0 <= frame_count (final (finally_block (final (handlers e l1)))) <=
            Z.of_nat (count_posts (t ++ trace (handlers e l1) ++
                                   trace (finally_block (final (handlers e l1))))))%Z.
    rewrite !count_posts_app, Hc, Hc', Hf, Hh. lia.
Qed.

Lemma frame_count_counts_accepted_uploads_witness :
  frame_count (final (loop_body sample_cfg w_activate at_loop_entry))
  = (frame_count at_loop_entry + 1)%Z
  /\ existsb is_post (trace (loop_body sample_cfg w_revoke once_active)) = true.
Proof.
  pose proof (frame_count_counts_accepted_uploads sample_cfg sample_startup []
                w_activate at_loop_entry) as Ha.
  pose proof (frame_count_counts_accepted_uploads sample_cfg sample_startup []
                w_revoke once_active) as Hb.
  cbv zeta in Ha, Hb. split.
  - apply (proj1 (proj2 Ha) (ok_json (PyDict [("status", PyStr "ok")]))
             (PyDict [("status", PyStr "ok")])); reflexivity.
  - apply (proj2 (proj2 Hb)). vm_compute. discriminate.
Defined.

(** One iteration logs throughput only at a positive multiple of 30. *)
Lemma loop_body_throughput cfg w l :
  (0 <= frame_count l)%Z ->
  Forall throughput_ok (trace (loop_body cfg w l)).
Proof.
  intros Hl. unfold loop_body, status_poll, frame_step, upload. unfold_monad.
  crunch; repeat (constructor; [exact I|]); repeat constructor;
    solve [lia | apply Z.eqb_eq; assumption].
Qed.

Lemma streaming_loop_throughput cfg ws :
  forall l, (0 <= frame_count l)%Z ->
            Forall throughput_ok (trace (streaming_loop cfg ws l)).
Proof.
  induction ws as [|w ws IH]; intros l Hl; [constructor|].
  cbn [streaming_loop]. rewrite bind_unfold.
  pose proof (loop_body_throughput cfg w l Hl) as H.
  pose proof (loop_body_count cfg w l) as Hc.
  destruct (value (loop_body cfg w l)); cbn [trace]; [|exact H].
  apply Forall_app. split; [exact H|]. apply IH. lia.
Qed.

Lemma try_block_throughput cfg sw ws l :
  Forall throughput_ok (trace (try_block cfg sw ws l)).
Proof.
  unfold try_block, init_loop. unfold_monad.
  crunch; repeat (constructor; [exact I|]); try constructor.
  match goal with
  | E : streaming_loop ?c ?ws' ?l' = _ |- _ =>
      assert (HS : Forall throughput_ok (trace (streaming_loop c ws' l')))
        by (apply streaming_loop_throughput; cbn; lia);
      rewrite E in HS
  end.
  exact HS.
Qed.

(** X6.  Every throughput line of a run reports a frame count that is a
    positive multiple of 30. *)
Theorem throughput_logged_every_30_frames
    (cfg : config) (sw : startup) (ws : list world) :
  Forall throughput_ok (events (main cfg sw ws)).
Proof.
  unfold main. pose proof (try_block_throughput cfg sw ws unbound) as H.
  destruct (try_block cfg sw ws unbound) as [t l1 [[]|e]]; cbn [value events trace final] in *.
  - repeat (constructor; [exact I|]). exact H.
  - repeat (constructor; [exact I|]).
    apply Forall_app. split; [exact H|]. apply Forall_app. split.
    + apply handlers_quiet.
    + apply finally_quiet.
Qed.

(** ** The polling interval along a run *)

Lemma loop_body_interval cfg w l :
  interval_sound l -> interval_sound (final (loop_body cfg w l)).
Proof.
  unfold interval_sound.
  unfold loop_body, status_poll, frame_step, upload. unfold_monad.
  intros (Ha & Hv).
  crunch; split; auto; try discriminate;
    repeat match goal with
           | H : negb ?b = _ |- _ => destruct b; cbn in H; try discriminate
           end;
    intros; try discriminate; auto.
Qed.

Lemma streaming_loop_interval cfg ws :
  forall l, interval_sound l -> interval_sound (final (streaming_loop cfg ws l)).
Proof.
  induction ws as [|w ws IH]; intros l Hl; [exact Hl|].
  cbn [streaming_loop]. rewrite bind_unfold.
  pose proof (loop_body_interval cfg w l Hl) as H.
  destruct (value (loop_body cfg w l)); cbn [final]; [|exact H].
  apply IH. exact H.
Qed.

Lemma try_block_interval cfg sw ws l :
  is_active l = false ->
  let o := try_block cfg sw ws l in
  (is_active (final o) = true -> status_check_interval (final o) = 3) /\
  (value o = Ok tt -> interval_sound (final o)).
Proof.
  intros Hl. unfold try_block, init_loop. unfold_monad.
  crunch; try (split; [congruence|discriminate]).
  match goal with
  | E : streaming_loop ?c ?ws' ?l' = _ |- _ =>
      assert (HS : interval_sound (final (streaming_loop c ws' l')))
        by (apply streaming_loop_interval; split; cbn; [discriminate|auto]);
      rewrite E in HS
  end.
  cbn in HS. split; [apply HS|intros _; exact HS].
Qed.

(** X7.  The half of the interval rule that the code keeps: at the end of
    every run of [main], if [is_active] is true then
    [status_check_interval] is 3.0; and while the loop is running the
    interval is 1.0, 0.5 or 3.0, so the poll timer never has a zero or
    negative period. *)
Theorem active_interval_is_three (cfg : config) (sw : startup) (ws : list world) :
  let l := vars (main cfg sw ws) in
  (is_active l = true -> status_check_interval l = 3)
  /\ (state (main cfg sw ws) = Running ->
      status_check_interval l = 1 \/ status_check_interval l = (1#2) \/
      status_check_interval l = 3).
Proof.
  unfold main. pose proof (try_block_interval cfg sw ws unbound eq_refl) as H.
  cbv zeta in H.
  destruct (try_block cfg sw ws unbound) as [t l1 [[]|e]];
    cbn [value events vars state trace final] in *.
  - destruct H as (Ha & Hv). split; [exact Ha|]. intros _. apply (Hv eq_refl).
  - destruct (handlers_quiet e l1) as (Hh & _).
    destruct (finally_quiet (final (handlers e l1))) as (Hf & _).
    rewrite Hf, Hh. split; [exact (proj1 H)|intros Hx; discriminate Hx].
Qed.

Lemma active_interval_is_three_witness :
  status_check_interval (vars (main sample_cfg sample_startup [w_activate; w_confirm])) = 3
  /\ (status_check_interval (vars (main sample_cfg sample_startup [w_other])) = 1 \/
      status_check_interval (vars (main sample_cfg sample_startup [w_other])) = (1#2) \/
      status_check_interval (vars (main sample_cfg sample_startup [w_other])) = 3).
Proof.
  split.
  - apply (proj1 (active_interval_is_three sample_cfg sample_startup
                    [w_activate; w_confirm])).
    reflexivity.
  - apply (proj2 (active_interval_is_three sample_cfg sample_startup [w_other])).
    reflexivity.
Defined.

(** ** The shape of one iteration *)

(** X8.  An iteration issues at most one GET and at most one POST; if it
    returns without posting it has slept, so the loop never spins; its
    sleeps last 0.1 s, 0.001 s or 1.0 s; and the frame it posts is the one
    the encoder returned in that iteration. *)
Theorem iteration_is_one_step (cfg : config) (w : world) (l : locals) :
  let b := loop_body cfg w l in
  (count_gets (trace b) <= 1)%nat
  /\ (count_posts (trace b) <= 1)%nat
  /\ (value b = Ok tt ->
      existsb is_post (trace b) = true \/ existsb is_sleep (trace b) = true)
  /\ (forall d, In (ESleep d) (trace b) -> d = (1#10) \/ d = (1#1000) \/ d = 1)
  /\ (forall u c f t, In (EPost u c f t) (trace b) -> w_encode w = Ok f).
Proof.
  unfold loop_body, status_poll, frame_step, upload. unfold_monad.
  crunch; repeat split; try lia; auto;
    try (intros H; discriminate H); intros; in_trace.
Qed.

Lemma iteration_is_one_step_witness :
  (existsb is_post (trace (loop_body sample_cfg w_other at_loop_entry)) = true \/
   existsb is_sleep (trace (loop_body sample_cfg w_other at_loop_entry)) = true)
  /\ w_encode w_activate = Ok "/9j/4AAQ".
Proof.
  split.
  - apply (proj1 (proj2 (proj2 (iteration_is_one_step sample_cfg w_other at_loop_entry)))).
    reflexivity.
  - apply (proj2 (proj2 (proj2 (proj2
             (iteration_is_one_step sample_cfg w_activate at_loop_entry))))
             (stream_url sample_cfg) "camera_0" "/9j/4AAQ" 1).
    vm_compute. auto 10.
Defined.

(** ** Division by the elapsed time *)

Arguments Qlt : simpl never.
Arguments Qle : simpl never.
Arguments Qeq : simpl never.

(** With a positive [frame_interval] an iteration ends with
    [ZeroDivisionError] only if the outside world raised it. *)
Lemma loop_body_zero_division (cfg : config) (w : world) (l : locals) :
  0 < frame_interval l ->
  value (loop_body cfg w l) = Raise ZeroDivisionError ->
  w_time w = Raise ZeroDivisionError \/ w_sleep w = Raise ZeroDivisionError \/
  w_capture w = Raise ZeroDivisionError \/ w_encode w = Raise ZeroDivisionError \/
  w_post w = Raise ZeroDivisionError \/
  exists r, w_post w = Ok r /\ json r = Raise ZeroDivisionError.
Proof.
  intros Hpos.
  unfold loop_body, status_poll, frame_step, upload. unfold_monad.
  crunch; intros H; try discriminate H;
    try (inversion H; subst; auto 10; fail);
    try (inversion H; subst; do 5 right; eexists; split; eauto; fail);
    try (exfalso; inversion H; subst;
         match goal with
         | E : is_Exception ZeroDivisionError = false |- _ => discriminate E
         | E : py_in _ _ = Raise _ |- _ => apply py_in_raises in E; discriminate E
         | E : py_getitem _ _ = Raise _ |- _ =>
             apply py_getitem_raises in E; destruct E as [E|E]; discriminate E
         end);
    try (exfalso;
         repeat match goal with
                | E : Qeq_bool _ _ = true |- _ => apply Qeq_bool_iff in E
                | E : Qltb _ _ = false |- _ =>
                    unfold Qltb in E; apply negb_false_iff, Qle_bool_iff in E
                end;
         lra).
Qed.

(** X9.  With a positive [frame_interval] (any [--fps] above 0) the
    division [1.0 / elapsed] of the throughput line cannot fail: unless an
    external call itself raises [ZeroDivisionError], no iteration ends with
    it. *)
Theorem positive_interval_never_divides_by_zero
    (cfg : config) (w : world) (l : locals) :
  0 < frame_interval l ->
  w_time w <> Raise ZeroDivisionError ->
  w_sleep w <> Raise ZeroDivisionError ->
  w_capture w <> Raise ZeroDivisionError ->
  w_encode w <> Raise ZeroDivisionError ->
  w_post w <> Raise ZeroDivisionError ->
  (forall r, w_post w = Ok r -> json r <> Raise ZeroDivisionError) ->
  value (loop_body cfg w l) <> Raise ZeroDivisionError.
Proof.
  intros Hpos Ht Hs Hc He Hp Hj Hv.
  destruct (loop_body_zero_division cfg w l Hpos Hv)
    as [H|[H|[H|[H|[H|(r & Hr & H)]]]]]; try contradiction.
  apply (Hj r Hr H).
Qed.

Lemma positive_interval_never_divides_by_zero_witness :
  0 < frame_interval once_active /\
  value (loop_body sample_cfg w_revoke once_active) <> Raise ZeroDivisionError.
Proof.
  split; [reflexivity|].
  apply (positive_interval_never_divides_by_zero sample_cfg w_revoke once_active);
    try reflexivity; try discriminate.
  intros r Hr. inversion Hr. subst r. cbn. discriminate.
Defined.

(** X10.  The guard is the pacing test alone.  With a [frame_interval]
    that is not positive (a negative [--fps]) and the clock reading the
    same instant as [last_frame_time], the frame is still captured and
    posted; when that upload is answered with 200 and a body the handler
    gets through (one on which the [is_active] test is false, or an object
    with the field, whatever it says) and brings [frame_count] to a
    multiple of 30, the throughput line divides by zero and the iteration
    ends with [ZeroDivisionError], [last_frame_time] untouched. *)
Theorem nonpositive_interval_divides_by_zero
    (cfg : config) (w : world) (ct : Q) (l : locals)
    (frame : string) (r : response) (body : pyval) :
  is_active l = true ->
  frame_interval l <= 0 ->
  ct == last_frame_time l ->
  w_capture w = Ok tt -> w_encode w = Ok frame ->
  w_post w = Ok r -> status_code r = 200%Z -> json r = Ok body ->
  body_handled body ->
  ((frame_count l + 1) mod 30 = 0)%Z ->
  let f := frame_step cfg w ct l in
  value f = Raise ZeroDivisionError /\
  existsb is_post (trace f) = true /\
  last_frame_time (final f) = last_frame_time l /\
  frame_count (final f) = (frame_count l + 1)%Z.
Proof.
  intros Ha Hfi Hct Hc He Hp H200 Hj Hb Hmod.
  assert (Hgate : Qltb (ct - last_frame_time l) (frame_interval l) = false).
  { unfold Qltb. apply negb_false_iff, Qle_bool_iff. lra. }
  assert (Hzero : Qeq_bool (ct - last_frame_time l) 0 = true).
  { apply Qeq_bool_iff. lra. }
  apply Z.eqb_eq in Hmod.
  unfold frame_step, upload. unfold_monad. cbn.
  rewrite Ha. cbn. rewrite Hgate, Hc. cbn. rewrite He. cbn. rewrite Hp. cbn.
  rewrite (proj2 (Z.eqb_eq _ _) H200), Hj. cbn.
  destruct Hb as [Hin|(items & flag & -> & Hk)].
  - rewrite Hin. cbn. rewrite Hmod, Hzero. cbn. auto.
  - cbn. rewrite Hk. cbn.
    destruct (truthy flag); cbn; rewrite Hmod, Hzero; cbn; auto.
Qed.

Lemma nonpositive_interval_divides_by_zero_witness :
  (let f := frame_step sample_cfg w_same_instant 7 negative_fps_locals in
   value f = Raise ZeroDivisionError /\
   existsb is_post (trace f) = true /\
   last_frame_time (final f) = last_frame_time negative_fps_locals /\
   frame_count (final f) = (frame_count negative_fps_locals + 1)%Z)
  /\ value (frame_step sample_cfg
              (quiet_world 7 "camera_0" (PyDict [("is_active", PyBool false)]))
              7 negative_fps_locals)
     = Raise ZeroDivisionError.
Proof.
  split.
  - apply (@nonpositive_interval_divides_by_zero sample_cfg w_same_instant 7
             negative_fps_locals "/9j/4AAQ"
             (ok_json (PyDict [("status", PyStr "ok")]))
             (PyDict [("status", PyStr "ok")]));
      try reflexivity.
    + unfold Qle. cbn. lia.
    + left. reflexivity.
  - apply (@nonpositive_interval_divides_by_zero sample_cfg
             (quiet_world 7 "camera_0" (PyDict [("is_active", PyBool false)])) 7
             negative_fps_locals "/9j/4AAQ"
             (ok_json (PyDict [("is_active", PyBool false)]))
             (PyDict [("is_active", PyBool false)]));
      try reflexivity.
    + unfold Qle. cbn. lia.
    + right. exists [("is_active", PyBool false)], (PyBool false). split; reflexivity.
Defined.

(** ** Uploads the server does not accept *)

(** X11.  An upload answered with a status other than 200 costs a warning
    with that status and nothing else: the body is not decoded,
    [frame_count] and [is_active] stay as the poll left them, no sleep is
    added, and the iteration ends normally with [last_frame_time] set to
    its timestamp. *)
Theorem rejected_upload_only_warns
    (cfg : config) (w : world) (l : locals) (r : response) :
  existsb is_post (trace (loop_body cfg w l)) = true ->
  w_post w = Ok r -> status_code r <> 200%Z ->
  let b := loop_body cfg w l in
  exists ct frame,
    w_time w = Ok ct /\
    trace b = trace (status_poll cfg w ct l) ++
              [ECapture ct; EEncode (quality cfg);
               EPost (stream_url cfg) (camera_id cfg) frame 1;
               ELog WARNING (MsgSendFailed (status_code r))] /\
    final b = set_last_frame_time ct (final (status_poll cfg w ct l)) /\
    value b = Ok tt.
Proof.
  intros Hposted Hp Hs b.
  destruct (loop_body_posted cfg w l Hposted) as (ct & Ht & Hv & Hpf & Heq).
  destruct (frame_step_posted cfg w ct _ Hpf)
    as (frame & _ & _ & _ & _ & Htr & Hval & Hfin).
  cbv zeta in *. set (p := status_poll cfg w ct l) in *.
  rewrite (upload_not_200 cfg w (ct - last_frame_time (final p)) frame (final p) r Hp Hs)
    in Htr, Hval, Hfin.
  cbn in Htr, Hval, Hfin.
  exists ct, frame. unfold b. rewrite Heq. cbn [trace final value].
  rewrite Htr, Hval, Hfin. auto.
Qed.

Lemma rejected_upload_only_warns_witness :
  let b := loop_body sample_cfg w_post_500 once_active in
  exists ct frame,
    w_time w_post_500 = Ok ct /\
    trace b = trace (status_poll sample_cfg w_post_500 ct once_active) ++
              [ECapture ct; EEncode (quality sample_cfg);
               EPost (stream_url sample_cfg) (camera_id sample_cfg) frame 1;
               ELog WARNING (MsgSendFailed 500)] /\
    final b = set_last_frame_time ct (final (status_poll sample_cfg w_post_500 ct once_active)) /\
    value b = Ok tt.
Proof.
  apply (@rejected_upload_only_warns sample_cfg w_post_500 once_active
           {| status_code := 500; json := Raise ValueError |}).
  - reflexivity.
  - reflexivity.
  - cbn. discriminate.
Defined.

(** ** Exceptions the inner handlers let through *)

(** X12.  The inner handlers absorb only their own classes.  An exception
    of the status GET that is no [Exception] ([KeyboardInterrupt],
    [SystemExit]) leaves the iteration at once, with no error line and the
    locals untouched.  An exception of the POST that is no
    [RequestException] leaves the iteration without the error line, without
    the one-second sleep and without updating [last_frame_time]. *)
Theorem inner_handlers_absorb_only_their_class
    (cfg : config) (w : world) (l : locals) (e : exn) :
  let b := loop_body cfg w l in
  (forall ct, w_time w = Ok ct -> poll_due ct l = true ->
      w_get w = Raise e -> is_Exception e = false ->
      b = {| trace := [EGet (status_url cfg) 1]; final := l; value := Raise e |})
  /\ (existsb is_post (trace b) = true ->
      w_post w = Raise e -> is_RequestException e = false ->
      value b = Raise e /\
      existsb is_sleep (trace b) = false /\
      ~ In (ELog ERROR (MsgConnectionError e)) (trace b) /\
      last_frame_time (final b) = last_frame_time l).
Proof.
  intros b. split.
  - intros ct Ht Hdue Hg He. unfold b.
    rewrite (loop_body_unfold cfg w ct l Ht). cbv zeta.
    assert (Hp : status_poll cfg w ct l
                 = {| trace := [EGet (status_url cfg) 1]; final := l; value := Raise e |}).
    { unfold status_poll. unfold poll_due in Hdue. unfold_monad. cbn.
      rewrite Hdue, Hg. cbn. rewrite He. reflexivity. }
    rewrite Hp. reflexivity.
  - intros Hposted Hp He.
    revert Hposted. unfold b, loop_body, status_poll, frame_step, upload. unfold_monad.
    crunch; intros Hposted; try discriminate Hposted;
      try congruence;
      repeat split; try reflexivity; try congruence;
      try (intros Hin; in_trace).
Qed.

Lemma inner_handlers_absorb_only_their_class_witness :
  loop_body sample_cfg w_interrupt_in_get once_active
  = {| trace := [EGet (status_url sample_cfg) 1]; final := once_active;
       value := Raise KeyboardInterrupt |}
  /\ value (loop_body sample_cfg w_post_value_error once_active) = Raise ValueError
  /\ last_frame_time (final (loop_body sample_cfg w_post_value_error once_active))
     = last_frame_time once_active.
Proof.
  pose proof (inner_handlers_absorb_only_their_class sample_cfg w_interrupt_in_get
                once_active KeyboardInterrupt) as Ha.
  pose proof (inner_handlers_absorb_only_their_class sample_cfg w_post_value_error
                once_active ValueError) as Hb.
  cbv zeta in Ha, Hb. split.
  - apply (proj1 Ha 5); reflexivity.
  - destruct (proj2 Hb eq_refl eq_refl eq_refl) as (Hv & _ & _ & Hl).
    split; [exact Hv|exact Hl].
Defined.

(** ** Leaving before the loop *)

(** X13.  With [--fps 0] the program never streams: once the camera is
    up and the stabilisation sleep is over, [1.0 / args.fps] raises, the
    error is logged, the camera is stopped and [main] returns, whatever the
    server would have answered. *)
Theorem zero_fps_never_streams (cfg : config) (sw : startup) (ws : list world) :
  fps cfg = 0%Z ->
  s_camera sw = Ok tt -> s_configure sw = Ok tt -> s_controls sw = Ok tt ->
  s_start sw = Ok tt -> s_sleep sw = Ok tt ->
  events (main cfg sw ws) =
    [ELog INFO (MsgServerUrl (stream_url cfg));
     ELog INFO (MsgSettings (width cfg) (height cfg) 0 (quality cfg));
     ELog INFO (MsgCameraId (camera_id cfg));
     ECameraInit; ECameraConfigure (width cfg) (height cfg); ECameraControls;
     ECameraStart; ELog INFO MsgCameraReady; ESleep 2;
     ELog ERROR (MsgFatal ZeroDivisionError); ECameraStop; ELog INFO MsgShutdown]
  /\ state (main cfg sw ws) = Exited None.
Proof.
  intros Hfps Hc Hcf Hct Hs Hsl.
  unfold main, try_block, init_loop. unfold_monad.
  rewrite Hc, Hcf, Hct, Hs, Hsl, Hfps. cbn. split; reflexivity.
Qed.

Lemma zero_fps_never_streams_witness :
  state (main zero_fps_cfg sample_startup [w_activate; w_confirm]) = Exited None.
Proof.
  apply (zero_fps_never_streams zero_fps_cfg sample_startup [w_activate; w_confirm]);
    reflexivity.
Defined.

(** X14.  When [Picamera2()] itself raises, [picam] is not bound and the
    [finally] clause does not call [picam.stop()]: the run consists of the
    three start-up lines, the attempt to open the camera, the line of the
    handler that caught the exception (none for an exception that is
    neither) and the shutdown line. *)
Theorem unopened_camera_is_not_stopped
    (cfg : config) (sw : startup) (ws : list world) (e : exn) :
  s_camera sw = Raise e ->
  existsb is_camera_stop (events (main cfg sw ws)) = false
  /\ events (main cfg sw ws) =
       [ELog INFO (MsgServerUrl (stream_url cfg));
        ELog INFO (MsgSettings (width cfg) (height cfg) (fps cfg) (quality cfg));
        ELog INFO (MsgCameraId (camera_id cfg)); ECameraInit]
       ++ trace (handlers e unbound) ++ [ELog INFO MsgShutdown]
  /\ picam (vars (main cfg sw ws)) = false.
Proof.
  intros Hc. unfold main, try_block. unfold_monad. rewrite Hc. cbn.
  destruct e; cbn; repeat split; reflexivity.
Qed.

Lemma unopened_camera_is_not_stopped_witness :
  existsb is_camera_stop (events (main sample_cfg no_camera [w_activate])) = false
  /\ events (main sample_cfg no_camera [w_activate]) =
       [ELog INFO (MsgServerUrl (stream_url sample_cfg));
        ELog INFO (MsgSettings 640 480 12 70);
        ELog INFO (MsgCameraId "camera_0"); ECameraInit;
        ELog ERROR (MsgFatal RuntimeError); ELog INFO MsgShutdown]
  /\ picam (vars (main sample_cfg no_camera [w_activate])) = false.
Proof.
  apply (unopened_camera_is_not_stopped sample_cfg no_camera [w_activate] RuntimeError).
  reflexivity.
Defined.



(** X16.  The loop is entered only after a complete start-up: if
    [1.0 / args.fps] raises ([ZeroDivisionError] for 0, [OverflowError]
    for an [int] too large for a float) or any start-up call raises, the
    run is the same whatever the iterations would have brought, it has left
    [main], and it holds no GET, capture, encode or POST. *)
Theorem failed_startup_skips_the_loop
    (cfg : config) (sw : startup) (ws : list world) :
  ((exists e, one_over (fps cfg) = Raise e) \/
   exists e, s_camera sw = Raise e \/ s_configure sw = Raise e \/
             s_controls sw = Raise e \/ s_start sw = Raise e \/
             s_sleep sw = Raise e \/ s_time1 sw = Raise e \/ s_time2 sw = Raise e) ->
  main cfg sw ws = main cfg sw []
  /\ (exists p, state (main cfg sw ws) = Exited p)
  /\ existsb is_get (events (main cfg sw ws)) = false
  /\ existsb is_frame_event (events (main cfg sw ws)) = false.
Proof.
  intros H.
  assert (Htb : exists t l1 e1,
             try_block cfg sw ws unbound = {| trace := t; final := l1; value := Raise e1 |}
             /\ try_block cfg sw [] unbound = {| trace := t; final := l1; value := Raise e1 |}
             /\ existsb is_get t = false /\ existsb is_frame_event t = false).
  { unfold try_block, init_loop. unfold_monad.
    destruct H as [(e & H)|(e & [H|[H|[H|[H|[H|[H|H]]]]]])];
      crunch; try congruence;
      try (eexists; eexists; eexists; repeat split; reflexivity). }
  destruct Htb as (t & l1 & e1 & Hws & Hnil & Hg & Hf).
  unfold main. rewrite Hws, Hnil. cbn [value events state trace final].
  split; [reflexivity|]. split; [eexists; reflexivity|].
  assert (Hh : existsb is_get (trace (handlers e1 l1)) = false /\
               existsb is_frame_event (trace (handlers e1 l1)) = false).
  { destruct e1; cbn; auto. }
  assert (Hfin : forall l', existsb is_get (trace (finally_block l')) = false /\
                            existsb is_frame_event (trace (finally_block l')) = false).
  { intros l'. unfold finally_block. unfold_monad. crunch; auto. }
  destruct Hh as (Hh1 & Hh2).
  destruct (Hfin (final (handlers e1 l1))) as (Hf1 & Hf2).
  split.
  - change (existsb is_get (t ++ trace (handlers e1 l1)
                              ++ trace (finally_block (final (handlers e1 l1)))) = false).
    rewrite !existsb_app, Hg, Hh1, Hf1. reflexivity.
  - change (existsb is_frame_event (t ++ trace (handlers e1 l1)
                              ++ trace (finally_block (final (handlers e1 l1)))) = false).
    rewrite !existsb_app, Hf, Hh2, Hf2. reflexivity.
Qed.

Lemma failed_startup_skips_the_loop_witness :
  main zero_fps_cfg sample_startup [w_activate; w_confirm]
  = main zero_fps_cfg sample_startup []
  /\ main huge_fps_cfg sample_startup [w_activate]
     = main huge_fps_cfg sample_startup []
  /\ main sample_cfg exit_in_startup [w_activate] = main sample_cfg exit_in_startup [].
Proof.
  split; [|split].
  - apply (failed_startup_skips_the_loop zero_fps_cfg sample_startup [w_activate; w_confirm]).
    left. exists ZeroDivisionError. vm_compute. reflexivity.
  - apply (failed_startup_skips_the_loop huge_fps_cfg sample_startup [w_activate]).
    left. exists OverflowError. vm_compute. reflexivity.
  - apply (failed_startup_skips_the_loop sample_cfg exit_in_startup [w_activate]).
    right. exists SystemExit. do 4 right. left. reflexivity.
Defined.

(** ** Pacing of the status polls *)

(** An iteration polls only when the interval has elapsed since
    [last_status_check], and an iteration that polled and goes on has set
    [last_status_check] to its timestamp; one that did not poll has left it
    alone. *)
Lemma loop_body_poll cfg w l :
  let b := loop_body cfg w l in
  (existsb is_get (trace b) = true ->
     exists ct, w_time w = Ok ct /\
                status_check_interval l <= ct - last_status_check l /\
                (value b = Ok tt -> last_status_check (final b) = ct))
  /\ (existsb is_get (trace b) = false ->
      last_status_check (final b) = last_status_check l).
Proof.
  unfold loop_body, status_poll, frame_step, upload. unfold_monad.
  crunch; split; intros H; try discriminate H; try reflexivity;
    eexists; (split; [reflexivity|]);
    (split; [apply Qle_bool_iff; assumption|]);
    intros Hv; try discriminate Hv; reflexivity.
Qed.

Lemma streaming_loop_polls cfg ws :
  forall l,
    interval_sound l ->
    match poll_stamps cfg ws l with
    | [] => True
    | t :: rest =>
        last_status_check l + status_check_interval l <= t /\
        spaced_from (1#2) t rest
    end.
Proof.
  induction ws as [|w ws IH]; intros l Hl; [exact I|].
  cbn [poll_stamps]. cbv zeta.
  destruct (loop_body_poll cfg w l) as (Hget & Hnoget).
  pose proof (loop_body_interval cfg w l Hl) as Hl'.
  specialize (IH (final (loop_body cfg w l)) Hl').
  assert (Hhalf : (1#2) <= status_check_interval (final (loop_body cfg w l))).
  { destruct Hl' as (_ & [H|[H|H]]); rewrite H; unfold Qle; cbn; lia. }
  destruct (existsb is_get (trace (loop_body cfg w l))) eqn:Hg.
  - destruct (Hget eq_refl) as (ct & Ht & Hdue & Hlsc). rewrite Ht.
    cbn [app]. split; [lra|].
    destruct (value (loop_body cfg w l)) as [[]|e]; [|exact I].
    specialize (Hlsc eq_refl).
    destruct (poll_stamps cfg ws (final (loop_body cfg w l))) as [|t rest]; [exact I|].
    destruct IH as (H1 & H2). split; [|exact H2]. rewrite Hlsc in H1. lra.
  - specialize (Hnoget eq_refl). cbn [app].
    destruct (value (loop_body cfg w l)) as [[]|e]; [|exact I].
    destruct (poll_stamps cfg ws (final (loop_body cfg w l))) as [|t rest]; [exact I|].
    destruct IH as (H1 & H2). split; [|exact H2].
    rewrite Hnoget in H1.
    destruct (loop_body cfg w l) as [tr fl vl] eqn:Hb. cbn in *.
    assert (Hsci : status_check_interval fl = status_check_interval l).
    { pose proof (f_equal (fun o => (existsb is_get (trace o),
                                     status_check_interval (final o))) Hb) as Hx.
      cbn in Hx. rewrite Hg in Hx.
      revert Hx. unfold loop_body, status_poll, frame_step, upload. unfold_monad.
      crunch; intros Hx; inversion Hx; reflexivity. }
    rewrite Hsci in H1. exact H1.
Qed.

(** X17.  Status polls are rate-limited.  Along the loop, started with the
    interval at one of its three values, the first poll comes no earlier
    than [last_status_check + status_check_interval], and consecutive polls
    are at least 0.5 s apart by the clock readings of their iterations. *)
Theorem polls_are_paced (cfg : config) (ws : list world) (l : locals) :
  interval_sound l ->
  spaced (1#2) (poll_stamps cfg ws l)
  /\ (forall t, head (poll_stamps cfg ws l) = Some t ->
        last_status_check l + status_check_interval l <= t).
Proof.
  intros Hl. pose proof (streaming_loop_polls cfg ws l Hl) as H.
  destruct (poll_stamps cfg ws l) as [|t rest]; cbn.
  - split; [exact I|]. intros t Ht. discriminate Ht.
  - destruct H as (H1 & H2). split; [exact H2|].
    intros t' Ht. inversion Ht. subst. exact H1.
Qed.

Lemma polls_are_paced_witness :
  spaced (1#2) (poll_stamps sample_cfg [w_other; w_interrupt; w_poll_timeout 5] at_loop_entry)
  /\ last_status_check at_loop_entry + status_check_interval at_loop_entry <= 1.
Proof.
  assert (Hs : interval_sound at_loop_entry).
  { split; [discriminate|left; reflexivity]. }
  pose proof (polls_are_paced sample_cfg [w_other; w_interrupt; w_poll_timeout 5]
                at_loop_entry Hs) as H.
  split; [exact (proj1 H)|]. apply (proj2 H 1). reflexivity.
Defined.

(** ** Camera faults *)

(** X18.  The camera and the encoder are not guarded inside the loop: if
    the capture or the encoding of a frame raises, the exception leaves the
    iteration whatever its class, nothing is posted, no sleep is added and
    [last_frame_time] keeps its value. *)
Theorem capture_fault_leaves_the_loop
    (cfg : config) (w : world) (l : locals) (ct : Q) (e : exn) :
  In (ECapture ct) (trace (loop_body cfg w l)) ->
  w_capture w = Raise e \/ (w_capture w = Ok tt /\ w_encode w = Raise e) ->
  let b := loop_body cfg w l in
  value b = Raise e /\
  existsb is_post (trace b) = false /\
  existsb is_sleep (trace b) = false /\
  last_frame_time (final b) = last_frame_time l.
Proof.
  intros Hin Hraise. cbv zeta. revert Hin.
  unfold loop_body, status_poll, frame_step, upload. unfold_monad.
  destruct Hraise as [Hc|(Hc & He)];
    crunch; intros Hin; try congruence;
    try (exfalso; in_trace; fail);
    repeat split; congruence.
Qed.

Lemma capture_fault_leaves_the_loop_witness :
  let b := loop_body sample_cfg w_capture_fails once_active in
  value b = Raise RuntimeError /\
  existsb is_post (trace b) = false /\
  existsb is_sleep (trace b) = false /\
  last_frame_time (final b) = last_frame_time once_active.
Proof.
  apply (capture_fault_leaves_the_loop sample_cfg w_capture_fails once_active 2
           RuntimeError).
  - vm_compute. auto.
  - left. reflexivity.
Defined.
